(** * Event scraper: the three-layer deduplication engine

    A shallow embedding of [deduplication.py] (normalisers, fingerprint,
    [is_duplicate]) and of the ingestion loop of [pipeline.py]
    ([deduplicate_and_store]), with the properties of the engine proved
    over it.

    Modelling conventions
    - A Python [str] is a [string] whose characters are the code points
      U+0000..U+00FF; [str.lower], [str.isspace] and the regular
      expression classes [\s] and [\w] are given on that range.
    - A Python value held by an event dictionary is a [pyval]; an event is
      a [gmap string pyval]; [d.get(k, v)] is [py_get].
    - A Python [set] of strings is a [gset string].
    - A raised exception is the [Raise] case of [result].
    - [hashlib.sha256(...).hexdigest()], [rapidfuzz.fuzz.token_sort_ratio]
      and the rendering of a score inside an f-string belong to external
      libraries: the engine is stated over them as Section variables. *)

From Stdlib Require Import QArith Ascii.
From stdpp Require Import gmap strings list pretty.
Close Scope Q_scope.
Open Scope string_scope.

(** ** Errors *)

Inductive exn : Type :=
| AttributeError.

Global Instance exn_eq_dec : EqDecision exn.
Proof. solve_decision. Defined.

Inductive result (A : Type) : Type :=
| Ok (a : A)
| Raise (e : exn).
Arguments Ok {A} a.
Arguments Raise {A} e.

Global Instance result_eq_dec {A : Type} `{EqDecision A} :
  EqDecision (result A).
Proof. solve_decision. Defined.

Global Instance result_ret : MRet result := fun A a => Ok a.

Global Instance result_bind : MBind result := fun A B k r =>
  match r with
  | Ok a => k a
  | Raise e => Raise e
  end.

(** ** Characters *)

Module Char.

Definition code (c : ascii) : N := N_of_ascii c.

Definition in_range (lo hi : N) (c : ascii) : bool :=
  (lo <=? code c)%N && (code c <=? hi)%N.

(** [str.isspace] on one code point: TAB..CR, FS..US, SPACE, NEL, NBSP. *)
Definition isspace (c : ascii) : bool :=
  in_range 9 13 c || in_range 28 32 c
  || (code c =? 133)%N || (code c =? 160)%N.

(** Upper-case letters: A-Z, and the Latin-1 letters U+00C0..U+00DE
    except the multiplication sign U+00D7. *)
Definition isupper (c : ascii) : bool :=
  in_range 65 90 c || in_range 192 214 c || in_range 216 222 c.

Definition lower (c : ascii) : ascii :=
  if isupper c then ascii_of_N (code c + 32) else c.

(** Alphanumeric code points ([str.isalnum]): digits, letters, the
    ordinal indicators, micro sign, superscript digits and vulgar
    fractions of Latin-1. *)
Definition isalnum (c : ascii) : bool :=
  in_range 48 57 c || in_range 65 90 c || in_range 97 122 c
  || (code c =? 170)%N || (code c =? 178)%N || (code c =? 179)%N
  || (code c =? 181)%N || (code c =? 185)%N || (code c =? 186)%N
  || in_range 188 190 c
  || in_range 192 214 c || in_range 216 246 c || in_range 248 255 c.

(** The class [\w] of the [re] module: alphanumeric or underscore. *)
Definition isword (c : ascii) : bool :=
  isalnum c || (code c =? 95)%N.

End Char.

(** ** String primitives of Python used by the normalisers *)

Fixpoint str_lower (s : string) : string :=
  match s with
  | EmptyString => EmptyString
  | String c s' => String (Char.lower c) (str_lower s')
  end.

Fixpoint lstrip (s : string) : string :=
  match s with
  | EmptyString => EmptyString
  | String c s' => if Char.isspace c then lstrip s' else s
  end.

Definition str_is_empty (s : string) : bool :=
  match s with
  | EmptyString => true
  | String _ _ => false
  end.

Fixpoint rstrip (s : string) : string :=
  match s with
  | EmptyString => EmptyString
  | String c s' =>
      let r := rstrip s' in
      if Char.isspace c && str_is_empty r then EmptyString else String c r
  end.

(** [s.strip()] *)
Definition strip (s : string) : string := rstrip (lstrip s).

(** [re.sub(r'\s+', ' ', s)]: every maximal run of whitespace becomes one
    space.  [in_run] records that the previous character was whitespace. *)
Fixpoint sub_ws_runs (in_run : bool) (s : string) : string :=
  match s with
  | EmptyString => EmptyString
  | String c s' =>
      if Char.isspace c
      then if in_run then sub_ws_runs true s'
           else String " " (sub_ws_runs true s')
      else String c (sub_ws_runs false s')
  end.

(** [re.sub(r'[^\w\s]', '', s)]: drop what is neither word nor space. *)
Fixpoint sub_non_word (s : string) : string :=
  match s with
  | EmptyString => EmptyString
  | String c s' =>
      if Char.isword c || Char.isspace c
      then String c (sub_non_word s')
      else sub_non_word s'
  end.

(** [s[:n]] *)
Fixpoint str_take (n : nat) (s : string) : string :=
  match n, s with
  | S n', String c s' => String c (str_take n' s')
  | _, _ => EmptyString
  end.

(** [needle in hay] on strings. *)
Fixpoint str_contains (needle hay : string) : bool :=
  String.prefix needle hay
  || match hay with
     | EmptyString => false
     | String _ hay' => str_contains needle hay'
     end.

Fixpoint str_forallb (p : ascii -> bool) (s : string) : bool :=
  match s with
  | EmptyString => true
  | String c s' => p c && str_forallb p s'
  end.

(** Character predicates used to state what the normaliser returns. *)

(** [c.lower() == c] *)
Definition char_lowered (c : ascii) : bool := Ascii.eqb (Char.lower c) c.

(** A word character or the plain space. *)
Definition word_or_blank (c : ascii) : bool :=
  Char.isword c || Ascii.eqb c " ".

(** Not whitespace, or the plain space. *)
Definition blank_or_not_space (c : ascii) : bool :=
  negb (Char.isspace c) || Ascii.eqb c " ".

(** The first character, if any, is not whitespace. *)
Definition no_leading_space (s : string) : bool :=
  match s with
  | EmptyString => true
  | String c _ => negb (Char.isspace c)
  end.

(** Neither punctuation nor symbol: a word character or whitespace. *)
Definition word_or_space (c : ascii) : bool :=
  Char.isword c || Char.isspace c.

(** ** Python values *)

Inductive pyval : Type :=
| PStr (s : string)
| PInt (z : Z)
| PBool (b : bool)
| PNone.

(** [str(v)] *)
Definition py_str (v : pyval) : string :=
  match v with
  | PStr s => s
  | PInt z => pretty z
  | PBool true => "True"
  | PBool false => "False"
  | PNone => "None"
  end.

(** Truth value of [v], as tested by [if v] and [not v]. *)
Definition py_truthy (v : pyval) : bool :=
  match v with
  | PStr s => negb (str_is_empty s)
  | PInt z => negb (z =? 0)%Z
  | PBool b => b
  | PNone => false
  end.

Definition is_text (v : pyval) : bool :=
  match v with
  | PStr _ => true
  | _ => false
  end.

Abbreviation dict := (gmap string pyval).

(** [d.get(k, default)] *)
Definition py_get (d : dict) (k : string) (default : pyval) : pyval :=
  match d !! k with
  | Some v => v
  | None => default
  end.

(** ** deduplication.py: normalisers *)

(** The body of [normalize_text] on a [str]. *)
Definition normalize_str (text : string) : string :=
  let text := strip (str_lower text) in
  let text := sub_ws_runs false text in
  let text := sub_non_word text in
  text.

(** [normalize_text(text)]: [text.lower()] raises [AttributeError] on a
    value that is not a [str]. *)
Definition normalize_text (text : pyval) : result string :=
  match text with
  | PStr s => Ok (normalize_str s)
  | _ => Raise AttributeError
  end.

Definition normalize_date (date_str : pyval) : string :=
  if negb (py_truthy date_str) then ""
  else str_take 10 (strip (py_str date_str)).

(** ** sheets.py: column order of the events sheet *)

Definition EVENTS_HEADERS : list string :=
  [ "content_hash"; "title"; "start_date"; "end_date"; "city";
    "country"; "platform"; "source_id"; "url"; "category";
    "price"; "is_free"; "organizer"; "description";
    "attendee_count"; "image_url"; "scraped_at"; "is_active" ].

(** ** Index, counters and loop state of one run *)

(** What [load_existing_events] returns. *)
Record existing_data : Type := {
  source_ids : gset string;
  content_hashes : gset string;
  events_list : list dict;
  total : Z
}.

Record run_stats : Type := {
  new : Z;
  dup_exact : Z;
  dup_hash : Z;
  dup_fuzzy : Z;
  errors : Z
}.

(** The variables mutated by the loop of [deduplicate_and_store]. *)
Record loop_state : Type := {
  st_source_ids : gset string;
  st_content_hashes : gset string;
  st_events_list : list dict;
  st_new_rows : list (list pyval);
  st_stats : run_stats
}.

(** What a run leaves behind: the returned summary, the calls made to
    [batch_append_events], and the working index at the end of the loop. *)
Record run_outcome : Type := {
  out_stats : run_stats;
  out_total : Z;
  out_appended : list (list (list pyval));
  out_state : loop_state
}.

Definition zero_stats : run_stats :=
  {| new := 0; dup_exact := 0; dup_hash := 0; dup_fuzzy := 0; errors := 0 |}.

Definition incr_new (s : run_stats) : run_stats :=
  {| new := new s + 1; dup_exact := dup_exact s; dup_hash := dup_hash s;
     dup_fuzzy := dup_fuzzy s; errors := errors s |}.

Definition incr_dup_exact (s : run_stats) : run_stats :=
  {| new := new s; dup_exact := dup_exact s + 1; dup_hash := dup_hash s;
     dup_fuzzy := dup_fuzzy s; errors := errors s |}.

Definition incr_dup_hash (s : run_stats) : run_stats :=
  {| new := new s; dup_exact := dup_exact s; dup_hash := dup_hash s + 1;
     dup_fuzzy := dup_fuzzy s; errors := errors s |}.

Definition incr_dup_fuzzy (s : run_stats) : run_stats :=
  {| new := new s; dup_exact := dup_exact s; dup_hash := dup_hash s;
     dup_fuzzy := dup_fuzzy s + 1; errors := errors s |}.

Definition incr_errors (s : run_stats) : run_stats :=
  {| new := new s; dup_exact := dup_exact s; dup_hash := dup_hash s;
     dup_fuzzy := dup_fuzzy s; errors := errors s + 1 |}.

Definition with_stats (f : run_stats -> run_stats) (st : loop_state)
  : loop_state :=
  {| st_source_ids := st_source_ids st;
     st_content_hashes := st_content_hashes st;
     st_events_list := st_events_list st;
     st_new_rows := st_new_rows st;
     st_stats := f (st_stats st) |}.

Definition stats_sum (s : run_stats) : Z :=
  new s + dup_exact s + dup_hash s + dup_fuzzy s + errors s.

Module Dedup.
Section Engine.

(** [hashlib.sha256(s.encode("utf-8")).hexdigest()] *)
Variable sha256_hexdigest : string -> string.

(** [rapidfuzz.fuzz.token_sort_ratio], a score between 0 and 100. *)
Variable token_sort_ratio : string -> string -> Q.

(** The text that [f"{similarity}"] gives for a score. *)
Variable fmt_score : Q -> string.

(** *** deduplication.py *)

Definition compute_content_hash (title start_date city : pyval)
  : result string :=
  t ← normalize_text title;
  let d := normalize_date start_date in
  c ← normalize_text city;
  let fingerprint := t +:+ "|" +:+ d +:+ "|" +:+ c in
  mret (sha256_hexdigest fingerprint).

Definition fuzzy_reason (similarity : Q) : string :=
  "fuzzy_match_" +:+ fmt_score similarity +:+ "pct".

(** The [for existing in existing_events] loop of layer 3, followed by
    the final [return False, ""]. *)
Fixpoint fuzzy_scan (new_title_norm new_date_norm new_city_norm : string)
    (fuzzy_threshold : Z) (existing_events : list dict)
  : result (bool * string) :=
  match existing_events with
  | [] => mret (false, "")
  | existing :: rest =>
      let same_date :=
        bool_decide
          (normalize_date (py_get existing "start_date" (PStr ""))
           = new_date_norm) in
      existing_city ← normalize_text (py_get existing "city" (PStr ""));
      let same_city := bool_decide (existing_city = new_city_norm) in
      if same_date && same_city && negb (str_is_empty new_date_norm)
      then
        existing_title_norm ←
          normalize_text (py_get existing "title" (PStr ""));
        let similarity :=
          token_sort_ratio new_title_norm existing_title_norm in
        if Qle_bool (inject_Z fuzzy_threshold) similarity
        then mret (true, fuzzy_reason similarity)
        else fuzzy_scan new_title_norm new_date_norm new_city_norm
               fuzzy_threshold rest
      else fuzzy_scan new_title_norm new_date_norm new_city_norm
             fuzzy_threshold rest
  end.

Definition is_duplicate (event : dict)
    (existing_source_ids existing_hashes : gset string)
    (existing_events : list dict) (fuzzy_threshold : Z)
  : result (bool * string) :=
  (* Layer 1: exact source id *)
  let source_id := strip (py_str (py_get event "source_id" (PStr ""))) in
  if negb (str_is_empty source_id)
     && bool_decide (source_id ∈ existing_source_ids)
  then mret (true, "exact_source_id")
  else
    (* Layer 2: content hash *)
    content_hash ←
      compute_content_hash (py_get event "title" (PStr ""))
        (py_get event "start_date" (PStr ""))
        (py_get event "city" (PStr ""));
    if bool_decide (content_hash ∈ existing_hashes)
    then mret (true, "content_hash")
    else
      (* Layer 3: fuzzy title match *)
      new_title_norm ← normalize_text (py_get event "title" (PStr ""));
      let new_date_norm :=
        normalize_date (py_get event "start_date" (PStr "")) in
      new_city_norm ← normalize_text (py_get event "city" (PStr ""));
      fuzzy_scan new_title_norm new_date_norm new_city_norm
        fuzzy_threshold existing_events.

(** Vocabulary of the fuzzy layer, read off the loop body: a stored
    tuple whose city and title are text can be compared; [gate] is the
    test [same_date and same_city and new_date_norm]; [title_score] is
    the similarity computed behind the gate. *)
Definition tuple_ok (existing : dict) : bool :=
  is_text (py_get existing "city" (PStr ""))
  && is_text (py_get existing "title" (PStr "")).

Definition gate (new_date_norm new_city_norm : string) (existing : dict)
  : bool :=
  bool_decide
    (normalize_date (py_get existing "start_date" (PStr ""))
     = new_date_norm)
  && bool_decide
       (normalize_text (py_get existing "city" (PStr ""))
        = Ok new_city_norm)
  && negb (str_is_empty new_date_norm).

Definition title_score (new_title_norm : string) (existing : dict) : Q :=
  match normalize_text (py_get existing "title" (PStr "")) with
  | Ok existing_title_norm =>
      token_sort_ratio new_title_norm existing_title_norm
  | Raise _ => 0%Q
  end.

(** One turn of the loop over [existing] cannot raise: its city is text
    and, if it passes the gate, its title is text. *)
Definition scannable (new_date_norm new_city_norm : string)
    (existing : dict) : bool :=
  is_text (py_get existing "city" (PStr ""))
  && (negb (gate new_date_norm new_city_norm existing)
      || is_text (py_get existing "title" (PStr ""))).

(** Layers 1 and 2 let the candidate through, and its normalised title,
    date and city are [nt], [nd] and [nc]. *)
Definition reaches_fuzzy_layer (event : dict)
    (existing_source_ids existing_hashes : gset string)
    (nt nd nc : string) : Prop :=
  (strip (py_str (py_get event "source_id" (PStr ""))) = ""
   ∨ strip (py_str (py_get event "source_id" (PStr "")))
     ∉ existing_source_ids)
  ∧ normalize_text (py_get event "title" (PStr "")) = Ok nt
  ∧ normalize_date (py_get event "start_date" (PStr "")) = nd
  ∧ normalize_text (py_get event "city" (PStr "")) = Ok nc
  ∧ sha256_hexdigest (nt +:+ "|" +:+ nd +:+ "|" +:+ nc) ∉ existing_hashes.

(** [prepare_event_row]; [now] is the timestamp read for this row. *)
Definition prepare_event_row (now : string) (event : dict)
  : result (list pyval) :=
  content_hash ←
    compute_content_hash (py_get event "title" (PStr ""))
      (py_get event "start_date" (PStr ""))
      (py_get event "city" (PStr ""));
  let event_data : dict :=
    list_to_map
      [ ("content_hash", PStr content_hash);
        ("title", py_get event "title" (PStr ""));
        ("start_date", py_get event "start_date" (PStr ""));
        ("end_date", py_get event "end_date" (PStr ""));
        ("city", py_get event "city" (PStr ""));
        ("country", py_get event "country" (PStr "India"));
        ("platform", py_get event "platform" (PStr ""));
        ("source_id", PStr (py_str (py_get event "source_id" (PStr ""))));
        ("url", py_get event "url" (PStr ""));
        ("category", py_get event "category" (PStr ""));
        ("price", py_get event "price" (PStr "Free"));
        ("is_free",
          PStr (if py_truthy (py_get event "is_free" (PBool true))
                then "TRUE" else "FALSE"));
        ("organizer", py_get event "organizer" (PStr ""));
        ("description",
          PStr (str_take 500
                  (py_str (py_get event "description" (PStr "")))));
        ("attendee_count", py_get event "attendee_count" (PStr ""));
        ("image_url", py_get event "image_url" (PStr ""));
        ("scraped_at", PStr now);
        ("is_active", PStr "TRUE") ] in
  mret ((fun h => py_get event_data h (PStr "")) <$> EVENTS_HEADERS).

End Engine.
End Dedup.

Module Pipeline.
Section Loop.

(** The external primitives, as in [Dedup]. *)
Variable sha256_hexdigest : string -> string.
Variable token_sort_ratio : string -> string -> Q.
Variable fmt_score : Q -> string.

(** [datetime.now().isoformat()] as read when row number [k] is built. *)
Variable now_isoformat : nat -> string.

Local Abbreviation compute_content_hash :=
  (Dedup.compute_content_hash sha256_hexdigest).
Local Abbreviation is_duplicate :=
  (Dedup.is_duplicate sha256_hexdigest token_sort_ratio fmt_score).
Local Abbreviation prepare_event_row :=
  (Dedup.prepare_event_row sha256_hexdigest).

(** *** pipeline.py: the loop of [deduplicate_and_store] *)

(** The body of the [try] for one event.  The state reached is returned
    together with the outcome, so that what was mutated before an
    exception stays mutated. *)
Definition try_body (event : dict) (st : loop_state)
  : loop_state * result unit :=
  match is_duplicate event (st_source_ids st) (st_content_hashes st)
          (st_events_list st) 85 with
  | Raise e => (st, Raise e)
  | Ok (dup, reason) =>
      if dup then
        if str_contains "source_id" reason
        then (with_stats incr_dup_exact st, Ok ())
        else if str_contains "hash" reason
        then (with_stats incr_dup_hash st, Ok ())
        else (with_stats incr_dup_fuzzy st, Ok ())
      else
        match prepare_event_row
                (now_isoformat (length (st_new_rows st))) event with
        | Raise e => (st, Raise e)
        | Ok row =>
            let st1 :=
              {| st_source_ids := st_source_ids st;
                 st_content_hashes := st_content_hashes st;
                 st_events_list := st_events_list st;
                 st_new_rows := st_new_rows st ++ [row];
                 st_stats := st_stats st |} in
            match compute_content_hash (py_get event "title" (PStr ""))
                    (py_get event "start_date" (PStr ""))
                    (py_get event "city" (PStr "")) with
            | Raise e => (st1, Raise e)
            | Ok content_hash =>
                ({| st_source_ids :=
                      st_source_ids st1
                      ∪ {[ py_str (py_get event "source_id" (PStr "")) ]};
                    st_content_hashes :=
                      st_content_hashes st1 ∪ {[ content_hash ]};
                    st_events_list :=
                      st_events_list st1 ++
                      [ list_to_map
                          [ ("title", py_get event "title" (PStr ""));
                            ("start_date",
                              py_get event "start_date" (PStr ""));
                            ("city", py_get event "city" (PStr "")) ] ];
                    st_new_rows := st_new_rows st1;
                    st_stats := incr_new (st_stats st1) |}, Ok ())
            end
        end
  end.

(** One iteration: [try: ... except Exception: stats["errors"] += 1]. *)
Definition process_event (st : loop_state) (event : dict) : loop_state :=
  match try_body event st with
  | (st', Ok _) => st'
  | (st', Raise _) => with_stats incr_errors st'
  end.

(** [for event in all_events: ...] *)
Definition process_events (st : loop_state) (all_events : list dict)
  : loop_state :=
  fold_left process_event all_events st.

Definition initial_state (existing : existing_data) : loop_state :=
  {| st_source_ids := source_ids existing;
     st_content_hashes := content_hashes existing;
     st_events_list := events_list existing;
     st_new_rows := [];
     st_stats := zero_stats |}.

(** [deduplicate_and_store], with [existing] what the sheet holds at the
    start.  The rounded floating-point [dup_rate] of the summary is left
    out. *)
Definition deduplicate_and_store (existing : existing_data)
    (all_events : list dict) : run_outcome :=
  let st := process_events (initial_state existing) all_events in
  {| out_stats := st_stats st;
     out_total := total existing + new (st_stats st);
     out_appended :=
       match st_new_rows st with
       | [] => []
       | rows => [rows]
       end;
     out_state := st |}.

End Loop.
End Pipeline.

(** ** Reference instances of the external primitives

    Used to run the engine on concrete inputs.  The score follows the
    documented definition of [token_sort_ratio]: split both strings on
    whitespace, sort the tokens, join them with one space, and take
    [100 * 2 * lcs / (len1 + len2)] (the normalised Indel similarity), here
    as an exact rational. *)

Module Reference.

Fixpoint split_ws (cur s : string) : list string :=
  match s with
  | EmptyString => if str_is_empty cur then [] else [cur]
  | String c s' =>
      if Char.isspace c
      then if str_is_empty cur then split_ws "" s'
           else cur :: split_ws "" s'
      else split_ws (cur +:+ String c "") s'
  end.

Fixpoint insert_sorted (t : string) (l : list string) : list string :=
  match l with
  | [] => [t]
  | u :: l' => if String.leb t u then t :: l else u :: insert_sorted t l'
  end.

Definition sort_tokens (l : list string) : list string :=
  foldr insert_sorted [] l.

Fixpoint join_space (l : list string) : string :=
  match l with
  | [] => ""
  | [t] => t
  | t :: l' => t +:+ " " +:+ join_space l'
  end.

(** One row of the longest-common-subsequence table. *)
Fixpoint lcs_row (x : ascii) (b : string) (prev : list nat)
    (diag left : nat) : list nat :=
  match b, prev with
  | String y b', p :: prev' =>
      let cur := if Ascii.eqb x y then S diag else Nat.max p left in
      cur :: lcs_row x b' prev' p cur
  | _, _ => []
  end.

Fixpoint lcs_rows (a b : string) (prev : list nat) : list nat :=
  match a with
  | EmptyString => prev
  | String x a' => lcs_rows a' b (lcs_row x b prev 0 0)
  end.

Definition lcs (a b : string) : nat :=
  List.last (lcs_rows a b (replicate (String.length b) 0)) 0.

Definition indel_ratio (a b : string) : Q :=
  let n := (String.length a + String.length b)%nat in
  match n with
  | O => inject_Z 100
  | S _ => Qmake (Z.of_nat (200 * lcs a b)) (Pos.of_nat n)
  end.

Definition token_sort_ratio (s1 s2 : string) : Q :=
  indel_ratio (join_space (sort_tokens (split_ws "" s1)))
              (join_space (sort_tokens (split_ws "" s2))).

(** A digest without collisions: the fingerprint itself. *)
Definition digest (fingerprint : string) : string := fingerprint.

(** A rendering of a score: numerator, slash, denominator. *)
Definition fmt_score (q : Q) : string :=
  pretty (Qnum q) +:+ "/" +:+ pretty (Z.pos (Qden q)).

Definition now_isoformat (k : nat) : string := "2025-06-01T12:00:00".

End Reference.

Abbreviation ref_is_duplicate :=
  (Dedup.is_duplicate Reference.digest Reference.token_sort_ratio
     Reference.fmt_score).

Abbreviation ref_run :=
  (Pipeline.deduplicate_and_store Reference.digest
     Reference.token_sort_ratio Reference.fmt_score
     Reference.now_isoformat).

Definition empty_existing : existing_data :=
  {| source_ids := ∅; content_hashes := ∅; events_list := []; total := 0 |}.

(** An event dictionary with the four fields the engine reads. *)
Definition mk_event (title start_date city source_id : string) : dict :=
  list_to_map
    [ ("title", PStr title); ("start_date", PStr start_date);
      ("city", PStr city); ("source_id", PStr source_id) ].

(** A stored tuple of the index. *)
Definition mk_tuple (title start_date city : string) : dict :=
  list_to_map
    [ ("title", PStr title); ("start_date", PStr start_date);
      ("city", PStr city) ].

(** A stored record of the events sheet, with the five columns the
    loader reads. *)
Definition mk_record (content_hash title start_date city source_id : string)
  : dict :=
  list_to_map
    [ ("content_hash", PStr content_hash); ("title", PStr title);
      ("start_date", PStr start_date); ("city", PStr city);
      ("source_id", PStr source_id) ].

(** ** sheets.py: loading the stored events *)

Module Sheets.

(** One turn of the loop of [load_existing_events] over [records]. *)
Definition load_row (acc : existing_data) (row : dict) : existing_data :=
  {| source_ids :=
       if py_truthy (py_get row "source_id" PNone)
       then source_ids acc ∪ {[ py_str (py_get row "source_id" PNone) ]}
       else source_ids acc;
     content_hashes :=
       if py_truthy (py_get row "content_hash" PNone)
       then content_hashes acc
            ∪ {[ py_str (py_get row "content_hash" PNone) ]}
       else content_hashes acc;
     events_list :=
       events_list acc ++
       [ list_to_map
           [ ("title", py_get row "title" (PStr ""));
             ("start_date",
               PStr (py_str (py_get row "start_date" (PStr ""))));
             ("city", py_get row "city" (PStr "")) ] ];
     total := total acc |}.

(** [load_existing_events], with [records] what
    [ws.get_all_records()] returns. *)
Definition load_existing_events (records : list dict) : existing_data :=
  let acc :=
    fold_left load_row records
      {| source_ids := ∅; content_hashes := ∅; events_list := [];
         total := 0 |} in
  {| source_ids := source_ids acc;
     content_hashes := content_hashes acc;
     events_list := events_list acc;
     total := Z.of_nat (length records) |}.

End Sheets.

(** ** scrapers/base.py: the common event shape *)

Module Scrapers.

(** [BaseScraper.normalize_event], for a scraper whose class constant is
    [PLATFORM_NAME]. *)
Definition normalize_event (PLATFORM_NAME : string) (raw : dict) : dict :=
  list_to_map
    [ ("title", py_get raw "title" (PStr "Untitled Event"));
      ("description", py_get raw "description" (PStr ""));
      ("start_date", py_get raw "start_date" (PStr ""));
      ("end_date", py_get raw "end_date" (PStr ""));
      ("city", py_get raw "city" (PStr ""));
      ("country", py_get raw "country" (PStr "India"));
      ("platform", PStr PLATFORM_NAME);
      ("source_id", PStr (py_str (py_get raw "source_id" (PStr ""))));
      ("url", py_get raw "url" (PStr ""));
      ("category", py_get raw "category" (PStr ""));
      ("price", py_get raw "price" (PStr "Free"));
      ("is_free", py_get raw "is_free" (PBool true));
      ("organizer", py_get raw "organizer" (PStr ""));
      ("attendee_count", py_get raw "attendee_count" (PStr ""));
      ("image_url", py_get raw "image_url" (PStr "")) ].

(** The keys of a normalised event. *)
Definition EVENT_KEYS : list string :=
  [ "title"; "description"; "start_date"; "end_date"; "city"; "country";
    "platform"; "source_id"; "url"; "category"; "price"; "is_free";
    "organizer"; "attendee_count"; "image_url" ].

End Scrapers.

(** ** Vocabulary for the properties of rows and of the working index *)

Fixpoint index_of (h : string) (l : list string) : option nat :=
  match l with
  | [] => None
  | h' :: l' => if bool_decide (h = h') then Some 0
                else S <$> index_of h l'
  end.

(** The cell of a sheet row under the column [h] of [EVENTS_HEADERS]. *)
Definition row_cell (row : list pyval) (h : string) : option pyval :=
  i ← index_of h EVENTS_HEADERS; row !! i.

(** The working index of [st'] holds all that the index of [st] holds, and
    its tuple list continues that of [st]. *)
Definition index_extends (st st' : loop_state) : Prop :=
  st_source_ids st ⊆ st_source_ids st'
  ∧ st_content_hashes st ⊆ st_content_hashes st'
  ∧ exists added, st_events_list st' = (st_events_list st ++ added)%list.

(** Layer 1 of [is_duplicate] on its own. *)
Definition exact_layer_hits (event : dict) (sids : gset string) : bool :=
  negb (str_is_empty (strip (py_str (py_get event "source_id" (PStr "")))))
  && bool_decide
       (strip (py_str (py_get event "source_id" (PStr ""))) ∈ sids).

(** * Properties *)

Example normalize_str_jazz : normalize_str "Jazz  Night" = "jazz night".
Proof. reflexivity. Qed.

Example normalize_str_tabs :
  normalize_str (String "009" "  AI  Summit, 2025! ") = "ai summit 2025".
Proof. reflexivity. Qed.

Example normalize_date_datetime :
  normalize_date (PStr "2025-03-01T18:00") = "2025-03-01".
Proof. reflexivity. Qed.

Example normalize_date_int : normalize_date (PInt 20250301) = "20250301".
Proof. vm_compute. reflexivity. Qed.


Example ratio_jazz_nights :
  Reference.token_sort_ratio "jazz nights" "jazz night" = Qmake 2000 21.
Proof. vm_compute. reflexivity. Qed.

Example ratio_reordered :
  Reference.token_sort_ratio "night jazz" "jazz night" = Qmake 2000 20.
Proof. vm_compute. reflexivity. Qed.

(** ** Normaliser *)

Ltac each_char c :=
  destruct c as [[] [] [] [] [] [] [] []]; vm_compute; try reflexivity;
  try discriminate.

Lemma lower_idempotent (c : ascii) : Char.lower (Char.lower c) = Char.lower c.
Proof. each_char c. Qed.

Lemma space_is_lowered : Char.lower " " = " "%char.
Proof. reflexivity. Qed.

Lemma str_forallb_impl (p q : ascii -> bool) (s : string) :
  (forall c, p c = true -> q c = true) ->
  str_forallb p s = true -> str_forallb q s = true.
Proof.
  intros Hpq. induction s as [|c s IH]; simpl; [done|].
  intros [Hc Hs]%andb_true_iff. rewrite (Hpq c Hc). simpl. auto.
Qed.

Lemma str_forallb_lower (s : string) :
  str_forallb char_lowered (str_lower s) = true.
Proof.
  induction s as [|c s IH]; simpl; [done|].
  rewrite IH, andb_true_r. unfold char_lowered.
  rewrite lower_idempotent. apply Ascii.eqb_refl.
Qed.

Lemma str_forallb_lowered (s : string) :
  str_forallb char_lowered s = true -> str_lower s = s.
Proof.
  induction s as [|c s IH]; simpl; [done|].
  intros [Hc Hs]%andb_true_iff. unfold char_lowered in Hc.
  apply Ascii.eqb_eq in Hc. rewrite Hc, (IH Hs). reflexivity.
Qed.

Lemma str_forallb_lstrip (p : ascii -> bool) (s : string) :
  str_forallb p s = true -> str_forallb p (lstrip s) = true.
Proof.
  induction s as [|c s IH]; simpl; [done|].
  intros H. destruct (Char.isspace c); [|exact H].
  apply andb_true_iff in H as [_ Hs]. auto.
Qed.

Lemma str_forallb_rstrip (p : ascii -> bool) (s : string) :
  str_forallb p s = true -> str_forallb p (rstrip s) = true.
Proof.
  induction s as [|c s IH]; simpl; [done|].
  intros [Hc Hs]%andb_true_iff.
  destruct (Char.isspace c && str_is_empty (rstrip s)); simpl; [done|].
  rewrite Hc. simpl. auto.
Qed.

Lemma str_forallb_sub_ws_runs (p : ascii -> bool) (b : bool) (s : string) :
  p " "%char = true ->
  str_forallb p s = true -> str_forallb p (sub_ws_runs b s) = true.
Proof.
  intros Hsp. revert b. induction s as [|c s IH]; intros b; simpl; [done|].
  intros [Hc Hs]%andb_true_iff.
  destruct (Char.isspace c).
  - destruct b; simpl; [|rewrite Hsp; simpl]; auto.
  - simpl. rewrite Hc. simpl. auto.
Qed.

Lemma str_forallb_sub_non_word (p : ascii -> bool) (s : string) :
  str_forallb p s = true -> str_forallb p (sub_non_word s) = true.
Proof.
  induction s as [|c s IH]; simpl; [done|].
  intros [Hc Hs]%andb_true_iff.
  destruct (Char.isword c || Char.isspace c); simpl; [rewrite Hc; simpl|];
    auto.
Qed.

Lemma sub_ws_runs_blank (b : bool) (s : string) :
  str_forallb blank_or_not_space (sub_ws_runs b s) = true.
Proof.
  revert b. induction s as [|c s IH]; intros b; simpl; [done|].
  destruct (Char.isspace c) eqn:Hc.
  - destruct b; simpl; auto.
  - simpl. unfold blank_or_not_space at 1. rewrite Hc. simpl. auto.
Qed.

Lemma sub_non_word_kept (p : ascii -> bool) (s : string) :
  str_forallb p s = true ->
  str_forallb (fun c => p c && (Char.isword c || Char.isspace c))
    (sub_non_word s) = true.
Proof.
  induction s as [|c s IH]; simpl; [done|].
  intros [Hc Hs]%andb_true_iff.
  destruct (Char.isword c || Char.isspace c) eqn:Hk; simpl; auto.
  rewrite Hc, Hk. simpl. auto.
Qed.

Lemma normalize_str_lowered (s : string) :
  str_lower (normalize_str s) = normalize_str s.
Proof.
  apply str_forallb_lowered. unfold normalize_str, strip.
  apply str_forallb_sub_non_word, str_forallb_sub_ws_runs; [reflexivity|].
  apply str_forallb_rstrip, str_forallb_lstrip, str_forallb_lower.
Qed.

Lemma normalize_str_alphabet (s : string) :
  str_forallb word_or_blank (normalize_str s) = true.
Proof.
  unfold normalize_str.
  eapply str_forallb_impl;
    [|apply sub_non_word_kept, (sub_ws_runs_blank false)].
  intros c. unfold blank_or_not_space, word_or_blank.
  destruct (Char.isword c), (Char.isspace c), (Ascii.eqb c " "); done.
Qed.

Lemma str_take_length (n : nat) (s : string) :
  String.length (str_take n s) <= n.
Proof.
  revert s. induction n as [|n IH]; intros [|c s]; simpl; try lia.
  specialize (IH s). lia.
Qed.

(** C5 (as amended).  For every string, the output of [normalize_text] is
    fully lower-case and is made of word characters (alphanumeric or
    underscore) and plain spaces only; a value that is not a string
    raises.  [normalize_date] of an empty (falsy) value is the empty
    string, and of any other value the first 10 characters of its
    stringified, trimmed form. *)
Theorem normalizer_canonical_form (s : string) (v : pyval) :
  normalize_text (PStr s) = Ok (normalize_str s)
  ∧ str_lower (normalize_str s) = normalize_str s
  ∧ str_forallb word_or_blank (normalize_str s) = true
  ∧ normalize_date v
    = (if py_truthy v then str_take 10 (strip (py_str v)) else "")
  ∧ String.length (normalize_date v) <= 10.
Proof.
  split; [reflexivity|].
  split; [apply normalize_str_lowered|].
  split; [apply normalize_str_alphabet|].
  assert (Hd : normalize_date v
               = if py_truthy v then str_take 10 (strip (py_str v)) else "").
  { unfold normalize_date. destruct (py_truthy v); reflexivity. }
  split; [exact Hd|].
  rewrite Hd. destruct (py_truthy v); [apply str_take_length|simpl; lia].
Qed.

(** C5 (as stated) fails: an underscore survives although it is not
    alphanumeric; punctuation between two spaces leaves a run of two
    spaces; punctuation at either end leaves a leading or trailing space. *)
Lemma normalizer_canonical_form_counterexample :
  (normalize_str "a_b" = "a_b"
   ∧ str_forallb (fun c => Char.isalnum c || Char.isspace c)
       (normalize_str "a_b") = false)
  ∧ normalize_str "Rock - Pop" = "rock  pop"
  ∧ normalize_str "- hello" = " hello"
  ∧ normalize_str "hello !" = "hello ".
Proof. repeat split; reflexivity. Qed.

(** ** Fingerprint and match engine *)

Lemma str_lower_idempotent (s : string) :
  str_lower (str_lower s) = str_lower s.
Proof.
  induction s as [|c s IH]; simpl; [done|].
  by rewrite lower_idempotent, IH.
Qed.

Lemma normalize_str_case (s : string) :
  normalize_str (str_lower s) = normalize_str s.
Proof. unfold normalize_str. by rewrite str_lower_idempotent. Qed.

Lemma str_is_empty_true (s : string) : str_is_empty s = true <-> s = "".
Proof. destruct s; simpl; split; congruence. Qed.

Lemma str_is_empty_false (s : string) : str_is_empty s = false <-> s ≠ "".
Proof. destruct s; simpl; split; congruence. Qed.

Lemma prefix_app (s t : string) : String.prefix s (s +:+ t) = true.
Proof.
  induction s as [|a s IH].
  - destruct t; reflexivity.
  - change (String a s +:+ t) with (String a (s +:+ t)). simpl.
    destruct (Ascii.ascii_dec a a); [exact IH|done].
Qed.

Section EngineProperties.

Variable sha256_hexdigest : string -> string.
Variable token_sort_ratio : string -> string -> Q.
Variable fmt_score : Q -> string.
Variable now_isoformat : nat -> string.

Local Abbreviation compute_content_hash :=
  (Dedup.compute_content_hash sha256_hexdigest).
Local Abbreviation fuzzy_scan :=
  (Dedup.fuzzy_scan token_sort_ratio fmt_score).
Local Abbreviation fuzzy_reason := (Dedup.fuzzy_reason fmt_score).
Local Abbreviation is_duplicate :=
  (Dedup.is_duplicate sha256_hexdigest token_sort_ratio fmt_score).
Local Abbreviation gate := Dedup.gate.
Local Abbreviation tuple_ok := Dedup.tuple_ok.
Local Abbreviation scannable := Dedup.scannable.
Local Abbreviation title_score := (Dedup.title_score token_sort_ratio).
Local Abbreviation reaches_fuzzy_layer :=
  (Dedup.reaches_fuzzy_layer sha256_hexdigest).
Local Abbreviation prepare_event_row :=
  (Dedup.prepare_event_row sha256_hexdigest).
Local Abbreviation try_body :=
  (Pipeline.try_body sha256_hexdigest token_sort_ratio fmt_score
     now_isoformat).
Local Abbreviation process_event :=
  (Pipeline.process_event sha256_hexdigest token_sort_ratio fmt_score
     now_isoformat).
Local Abbreviation process_events :=
  (Pipeline.process_events sha256_hexdigest token_sort_ratio fmt_score
     now_isoformat).
Local Abbreviation deduplicate_and_store :=
  (Pipeline.deduplicate_and_store sha256_hexdigest token_sort_ratio
     fmt_score now_isoformat).

Lemma compute_content_hash_text (t c : string) (d : pyval) :
  compute_content_hash (PStr t) d (PStr c)
  = Ok (sha256_hexdigest
          (normalize_str t +:+ "|" +:+ normalize_date d +:+ "|"
           +:+ normalize_str c)).
Proof. reflexivity. Qed.

Lemma compute_content_hash_ok (t d c : pyval) (nt nc : string) :
  normalize_text t = Ok nt -> normalize_text c = Ok nc ->
  compute_content_hash t d c
  = Ok (sha256_hexdigest
          (nt +:+ "|" +:+ normalize_date d +:+ "|" +:+ nc)).
Proof.
  intros Ht Hc. unfold Dedup.compute_content_hash.
  rewrite Ht. simpl. rewrite Hc. reflexivity.
Qed.

Lemma compute_content_hash_inv (t d c : pyval) (h : string) :
  compute_content_hash t d c = Ok h ->
  exists nt nc, normalize_text t = Ok nt ∧ normalize_text c = Ok nc
    ∧ h = sha256_hexdigest
            (nt +:+ "|" +:+ normalize_date d +:+ "|" +:+ nc).
Proof.
  unfold Dedup.compute_content_hash.
  destruct (normalize_text t) as [nt|] eqn:Ht; simpl; [|discriminate].
  destruct (normalize_text c) as [nc|] eqn:Hc; simpl; [|discriminate].
  intros [= <-]. eauto.
Qed.

(** C3.  The fingerprint is a function of the normalised title, date and
    city only: two argument triples that normalise identically have the
    same fingerprint (a pair that raises, raises on both sides);
    lower-casing title and city does not change it; and the two spellings
    of the jazz night have one fingerprint. *)
Theorem fingerprint_normalization_invariance :
  (forall t1 d1 c1 t2 d2 c2 : pyval,
      normalize_text t1 = normalize_text t2 ->
      normalize_date d1 = normalize_date d2 ->
      normalize_text c1 = normalize_text c2 ->
      compute_content_hash t1 d1 c1 = compute_content_hash t2 d2 c2)
  ∧ (forall (t c : string) (d : pyval),
        compute_content_hash (PStr (str_lower t)) d (PStr (str_lower c))
        = compute_content_hash (PStr t) d (PStr c))
  ∧ compute_content_hash (PStr "Jazz  Night") (PStr "2025-03-01T18:00")
      (PStr "Mumbai")
    = compute_content_hash (PStr "jazz night") (PStr "2025-03-01")
        (PStr "MUMBAI").
Proof.
  split; [|split].
  - intros t1 d1 c1 t2 d2 c2 Ht Hd Hc.
    unfold Dedup.compute_content_hash.
    rewrite Ht, Hd, Hc. reflexivity.
  - intros t c d. rewrite !compute_content_hash_text.
    by rewrite !normalize_str_case.
  - reflexivity.
Qed.

(** C2.  A candidate whose trimmed source id is non-empty and is in the
    source-id set is a duplicate by [exact_source_id], whatever the hash
    set, the stored tuples and the threshold are. *)
Theorem exact_source_id_has_priority (event : dict)
    (existing_source_ids existing_hashes : gset string)
    (existing_events : list dict) (fuzzy_threshold : Z) :
  strip (py_str (py_get event "source_id" (PStr ""))) ≠ "" ->
  strip (py_str (py_get event "source_id" (PStr "")))
    ∈ existing_source_ids ->
  is_duplicate event existing_source_ids existing_hashes existing_events
    fuzzy_threshold
  = Ok (true, "exact_source_id").
Proof.
  intros Hne Hin. unfold Dedup.is_duplicate.
  apply str_is_empty_false in Hne. rewrite Hne.
  rewrite bool_decide_eq_true_2 by exact Hin. reflexivity.
Qed.

(** *** The scan of layer 3 *)

Lemma fuzzy_scan_nil (nt nd nc : string) (T : Z) :
  fuzzy_scan nt nd nc T [] = Ok (false, "").
Proof. reflexivity. Qed.

(** On a tuple that can be compared, one turn of the loop is the gate,
    then the threshold test. *)
Lemma fuzzy_scan_cons (nt nd nc : string) (T : Z) (r : dict)
    (rest : list dict) :
  tuple_ok r = true ->
  fuzzy_scan nt nd nc T (r :: rest)
  = if gate nd nc r && Qle_bool (inject_Z T) (title_score nt r)
    then Ok (true, fuzzy_reason (title_score nt r))
    else fuzzy_scan nt nd nc T rest.
Proof.
  unfold Dedup.tuple_ok, Dedup.gate, Dedup.title_score.
  intros [Hc Ht]%andb_true_iff. simpl.
  destruct (py_get r "city" (PStr "")) as [ec| | |]; try discriminate.
  destruct (py_get r "title" (PStr "")) as [et| | |]; try discriminate.
  simpl.
  destruct (bool_decide (normalize_date _ = nd)); simpl; [|reflexivity].
  destruct (decide (normalize_str ec = nc)) as [Heq|Hne].
  - rewrite !bool_decide_eq_true_2 by congruence. simpl.
    destruct (str_is_empty nd); simpl; [reflexivity|].
    destruct (Qle_bool _ _); reflexivity.
  - rewrite !bool_decide_eq_false_2 by congruence. reflexivity.
Qed.

(** Whatever the scan returns, it is the verdict [Unique] or a fuzzy
    match on a stored tuple that passes the gate and meets the threshold. *)
Lemma fuzzy_scan_sound (nt nd nc : string) (T : Z) (events : list dict)
    (dup : bool) (reason : string) :
  fuzzy_scan nt nd nc T events = Ok (dup, reason) ->
  (dup = false ∧ reason = "")
  ∨ (exists r, r ∈ events ∧ gate nd nc r = true
       ∧ (inject_Z T <= title_score nt r)%Q
       ∧ dup = true ∧ reason = fuzzy_reason (title_score nt r)).
Proof.
  induction events as [|r rest IH]; simpl.
  - intros [= <- <-]. by left.
  - destruct (normalize_text (py_get r "city" (PStr ""))) as [ec|] eqn:Hc;
      simpl; [|discriminate].
    intros H.
    assert (Hrest : fuzzy_scan nt nd nc T rest = Ok (dup, reason) ->
              (dup = false ∧ reason = "")
              ∨ (exists r0, r0 ∈ r :: rest ∧ Dedup.gate nd nc r0 = true
                   ∧ (inject_Z T <= title_score nt r0)%Q
                   ∧ dup = true
                   ∧ reason = fuzzy_reason (title_score nt r0))).
    { intros Hr. destruct (IH Hr) as [?|(r0 & Hin & ?)]; [by left|].
      right. exists r0. split; [by apply list_elem_of_further|done]. }
    destruct (bool_decide (normalize_date _ = nd)) eqn:Hd; simpl in H;
      [|auto].
    destruct (bool_decide (ec = nc)) eqn:Hcity; simpl in H; [|auto].
    destruct (str_is_empty nd) eqn:Hnd; simpl in H; [auto|].
    destruct (normalize_text (py_get r "title" (PStr ""))) as [et|] eqn:Ht;
      simpl in H; [|discriminate H].
    destruct (Qle_bool (inject_Z T) (token_sort_ratio nt et)) eqn:Hq;
      [|auto].
    injection H as <- <-. right. exists r.
    split; [apply list_elem_of_here|].
    apply bool_decide_eq_true_1 in Hcity. subst ec.
    unfold Dedup.gate, Dedup.title_score. rewrite Hd, Hc, Ht, Hnd.
    rewrite bool_decide_eq_true_2 by reflexivity.
    apply Qle_bool_iff in Hq. done.
Qed.

(** The first tuple that passes the gate and meets the threshold decides:
    the tuples before it are passed over, those after it are not read. *)
Lemma fuzzy_scan_first (nt nd nc : string) (T : Z) (pre post : list dict)
    (r : dict) :
  Forall (fun r' => tuple_ok r' = true) pre ->
  (forall r', r' ∈ pre -> gate nd nc r' = true ->
              (title_score nt r' < inject_Z T)%Q) ->
  tuple_ok r = true ->
  gate nd nc r = true ->
  (inject_Z T <= title_score nt r)%Q ->
  fuzzy_scan nt nd nc T (pre ++ r :: post)
  = Ok (true, fuzzy_reason (title_score nt r)).
Proof.
  intros Hok Hlow Hr Hg Hs. induction pre as [|r' pre IH].
  - simpl app. rewrite fuzzy_scan_cons by exact Hr.
    apply Qle_bool_iff in Hs. by rewrite Hg, Hs.
  - apply Forall_cons in Hok as [Hr' Hok].
    rewrite <- app_comm_cons, fuzzy_scan_cons by exact Hr'.
    destruct (Dedup.gate nd nc r') eqn:Hg'; simpl.
    + assert (Hlt := Hlow r' (list_elem_of_here _ _) Hg').
      destruct (Qle_bool (inject_Z T) (title_score nt r')) eqn:Hq.
      * apply Qle_bool_iff in Hq. exfalso.
        exact (Qlt_not_le _ _ Hlt Hq).
      * apply IH; [exact Hok|].
        intros r0 Hin. apply Hlow. by apply list_elem_of_further.
    + apply IH; [exact Hok|].
      intros r0 Hin. apply Hlow. by apply list_elem_of_further.
Qed.

(** No gated tuple reaches the threshold: the scan ends with [Unique]. *)
Lemma fuzzy_scan_none (nt nd nc : string) (T : Z) (events : list dict) :
  Forall (fun r => tuple_ok r = true) events ->
  (forall r, r ∈ events -> gate nd nc r = true ->
             (title_score nt r < inject_Z T)%Q) ->
  fuzzy_scan nt nd nc T events = Ok (false, "").
Proof.
  intros Hok Hlow. induction events as [|r rest IH]; [reflexivity|].
  apply Forall_cons in Hok as [Hr Hok].
  rewrite fuzzy_scan_cons by exact Hr.
  assert (Hrest : fuzzy_scan nt nd nc T rest = Ok (false, "")).
  { apply IH; [exact Hok|]. intros r0 Hin.
    apply Hlow. by apply list_elem_of_further. }
  destruct (Dedup.gate nd nc r) eqn:Hg; simpl; [|exact Hrest].
  assert (Hlt := Hlow r (list_elem_of_here _ _) Hg).
  destruct (Qle_bool (inject_Z T) (title_score nt r)) eqn:Hq; [|exact Hrest].
  apply Qle_bool_iff in Hq. exfalso. exact (Qlt_not_le _ _ Hlt Hq).
Qed.

(** Some gated tuple meets the threshold: the scan reports a fuzzy match
    whose score meets the threshold. *)
Lemma fuzzy_scan_some (nt nd nc : string) (T : Z) (events : list dict)
    (r : dict) :
  Forall (fun r' => tuple_ok r' = true) events ->
  r ∈ events -> gate nd nc r = true ->
  (inject_Z T <= title_score nt r)%Q ->
  exists s, (inject_Z T <= s)%Q
    ∧ fuzzy_scan nt nd nc T events = Ok (true, fuzzy_reason s).
Proof.
  intros Hok Hin Hg Hs. induction events as [|r' rest IH].
  - by apply elem_of_nil in Hin.
  - apply Forall_cons in Hok as [Hr' Hok].
    rewrite fuzzy_scan_cons by exact Hr'.
    destruct (Dedup.gate nd nc r' && Qle_bool (inject_Z T) (title_score nt r'))
      eqn:Hhit.
    + apply andb_true_iff in Hhit as [_ Hq]. apply Qle_bool_iff in Hq.
      eauto.
    + apply elem_of_cons in Hin as [->|Hin].
      * apply Qle_bool_iff in Hs. rewrite Hg, Hs in Hhit. discriminate.
      * by apply IH.
Qed.

(** A candidate let through by layers 1 and 2 is decided by the scan. *)
Lemma is_duplicate_reaches (event : dict) (sids hashes : gset string)
    (events : list dict) (T : Z) (nt nd nc : string) :
  reaches_fuzzy_layer event sids hashes nt nd nc ->
  is_duplicate event sids hashes events T = fuzzy_scan nt nd nc T events.
Proof.
  intros (H1 & Ht & Hd & Hc & Hh). unfold Dedup.is_duplicate.
  replace (negb (str_is_empty (strip (py_str (py_get event "source_id" (PStr "")))))
           && bool_decide (strip (py_str (py_get event "source_id" (PStr "")))
                           ∈ sids)) with false.
  2:{ symmetry. destruct H1 as [H1|H1].
      - by rewrite H1.
      - rewrite (bool_decide_eq_false_2 _ H1). apply andb_false_r. }
  rewrite (compute_content_hash_ok _ _ _ _ _ Ht Hc). simpl.
  rewrite Hd, (bool_decide_eq_false_2 _ Hh), Ht. simpl.
  rewrite Hc. reflexivity.
Qed.

(** The four ways [is_duplicate] can return. *)
Lemma is_duplicate_cases (event : dict) (sids hashes : gset string)
    (events : list dict) (T : Z) (dup : bool) (reason : string) :
  is_duplicate event sids hashes events T = Ok (dup, reason) ->
  (dup = true ∧ reason = "exact_source_id")
  ∨ (dup = true ∧ reason = "content_hash")
  ∨ (exists nt nc,
        normalize_text (py_get event "title" (PStr "")) = Ok nt
        ∧ normalize_text (py_get event "city" (PStr "")) = Ok nc
        ∧ fuzzy_scan nt
            (normalize_date (py_get event "start_date" (PStr ""))) nc T
            events = Ok (dup, reason)).
Proof.
  unfold Dedup.is_duplicate.
  destruct (negb _ && bool_decide _).
  { intros [= <- <-]. by left. }
  destruct (compute_content_hash _ _ _) as [h|] eqn:Hh; simpl;
    [|discriminate].
  destruct (bool_decide (h ∈ hashes)).
  { intros [= <- <-]. right. by left. }
  apply compute_content_hash_inv in Hh as (nt & nc & Ht & Hc & _).
  rewrite Ht. simpl. rewrite Hc. simpl. intros H.
  right. right. eauto.
Qed.

Lemma gate_true (nd nc : string) (r : dict) :
  gate nd nc r = true ->
  normalize_date (py_get r "start_date" (PStr "")) = nd
  ∧ normalize_text (py_get r "city" (PStr "")) = Ok nc
  ∧ nd ≠ "".
Proof.
  unfold Dedup.gate. intros [[Hd Hc]%andb_true_iff Hn]%andb_true_iff.
  apply bool_decide_eq_true_1 in Hd, Hc.
  apply negb_true_iff, str_is_empty_false in Hn. done.
Qed.

Lemma fuzzy_reason_prefix (s : Q) :
  String.prefix "fuzzy_match_" (fuzzy_reason s) = true.
Proof. apply prefix_app. Qed.


(** A tuple whose city and title are text can be scanned. *)
Lemma tuple_ok_scannable (nd nc : string) (r : dict) :
  tuple_ok r = true -> scannable nd nc r = true.
Proof.
  unfold Dedup.tuple_ok, Dedup.scannable.
  intros [-> ->]%andb_true_iff. by rewrite orb_true_r.
Qed.

(** On a tuple that can be scanned, one turn of the loop is the gate,
    then the threshold test. *)
Lemma fuzzy_scan_step (nt nd nc : string) (T : Z) (r : dict)
    (rest : list dict) :
  scannable nd nc r = true ->
  fuzzy_scan nt nd nc T (r :: rest)
  = if gate nd nc r && Qle_bool (inject_Z T) (title_score nt r)
    then Ok (true, fuzzy_reason (title_score nt r))
    else fuzzy_scan nt nd nc T rest.
Proof.
  unfold Dedup.scannable, Dedup.gate, Dedup.title_score.
  intros [Hc Ht]%andb_true_iff. simpl.
  destruct (py_get r "city" (PStr "")) as [ec| | |]; try discriminate.
  simpl in *.
  destruct (bool_decide (normalize_date _ = nd)); simpl in *;
    [|reflexivity].
  destruct (decide (normalize_str ec = nc)) as [Heq|Hne].
  - rewrite !bool_decide_eq_true_2 in * by congruence. simpl in *.
    destruct (str_is_empty nd); simpl in *; [reflexivity|].
    destruct (py_get r "title" (PStr "")) as [et| | |];
      try discriminate.
    simpl. destruct (Qle_bool _ _); reflexivity.
  - rewrite !bool_decide_eq_false_2 by congruence. reflexivity.
Qed.

(** The first qualifying tuple decides, the tuples before it being
    scanned without a match. *)
Lemma fuzzy_scan_first_hit (nt nd nc : string) (T : Z)
    (pre post : list dict) (r : dict) :
  Forall (fun r' => scannable nd nc r' = true) pre ->
  (forall r', r' ∈ pre -> gate nd nc r' = true ->
              (title_score nt r' < inject_Z T)%Q) ->
  is_text (py_get r "title" (PStr "")) = true ->
  gate nd nc r = true ->
  (inject_Z T <= title_score nt r)%Q ->
  fuzzy_scan nt nd nc T (pre ++ r :: post)
  = Ok (true, fuzzy_reason (title_score nt r)).
Proof.
  intros Hok Hlow Ht Hg Hs.
  assert (Hr : scannable nd nc r = true).
  { unfold Dedup.scannable. rewrite Ht, orb_true_r, andb_true_r.
    apply gate_true in Hg as (_ & Hc & _).
    by destruct (py_get r "city" (PStr "")). }
  induction pre as [|r' pre IH].
  - simpl app. rewrite fuzzy_scan_step by exact Hr.
    apply Qle_bool_iff in Hs. by rewrite Hg, Hs.
  - apply Forall_cons in Hok as [Hr' Hok].
    rewrite <- app_comm_cons, fuzzy_scan_step by exact Hr'.
    assert (IH' : fuzzy_scan nt nd nc T (pre ++ r :: post)
                  = Ok (true, fuzzy_reason (title_score nt r))).
    { apply IH; [exact Hok|].
      intros r0 Hin. apply Hlow. by apply list_elem_of_further. }
    destruct (Dedup.gate nd nc r') eqn:Hg'; simpl; [|exact IH'].
    assert (Hlt := Hlow r' (list_elem_of_here _ _) Hg').
    destruct (Qle_bool (inject_Z T) (title_score nt r')) eqn:Hq;
      [|exact IH'].
    apply Qle_bool_iff in Hq. exfalso. exact (Qlt_not_le _ _ Hlt Hq).
Qed.

(** A qualifying tuple reached by the scan: there is a fuzzy match, on it
    or on a qualifying tuple before it. *)
Lemma fuzzy_scan_some_hit (nt nd nc : string) (T : Z)
    (pre post : list dict) (r : dict) :
  Forall (fun r' => scannable nd nc r' = true) pre ->
  is_text (py_get r "title" (PStr "")) = true ->
  gate nd nc r = true ->
  (inject_Z T <= title_score nt r)%Q ->
  exists s, (inject_Z T <= s)%Q
    ∧ fuzzy_scan nt nd nc T (pre ++ r :: post)
      = Ok (true, fuzzy_reason s).
Proof.
  intros Hok Ht Hg Hs. induction pre as [|r' pre IH].
  - exists (title_score nt r). split; [exact Hs|].
    apply (fuzzy_scan_first_hit nt nd nc T [] post r); try done.
    intros r' Hin. by apply elem_of_nil in Hin.
  - apply Forall_cons in Hok as [Hr' Hok].
    rewrite <- app_comm_cons, fuzzy_scan_step by exact Hr'.
    destruct (Dedup.gate nd nc r'
              && Qle_bool (inject_Z T) (title_score nt r')) eqn:Hhit;
      [|by apply IH].
    apply andb_true_iff in Hhit as [_ Hq]. apply Qle_bool_iff in Hq.
    eauto.
Qed.

(** With every gated tuple below the threshold, the scan is scanned to its
    end without a match. *)
Lemma fuzzy_scan_no_hit (nt nd nc : string) (T : Z) (events : list dict) :
  Forall (fun r => scannable nd nc r = true) events ->
  (forall r, r ∈ events -> gate nd nc r = true ->
             (title_score nt r < inject_Z T)%Q) ->
  fuzzy_scan nt nd nc T events = Ok (false, "").
Proof.
  intros Hok Hlow. induction events as [|r rest IH]; [reflexivity|].
  apply Forall_cons in Hok as [Hr Hok].
  rewrite fuzzy_scan_step by exact Hr.
  assert (Hrest : fuzzy_scan nt nd nc T rest = Ok (false, "")).
  { apply IH; [exact Hok|]. intros r0 Hin.
    apply Hlow. by apply list_elem_of_further. }
  destruct (Dedup.gate nd nc r) eqn:Hg; simpl; [|exact Hrest].
  assert (Hlt := Hlow r (list_elem_of_here _ _) Hg).
  destruct (Qle_bool (inject_Z T) (title_score nt r)) eqn:Hq; [|exact Hrest].
  apply Qle_bool_iff in Hq. exfalso. exact (Qlt_not_le _ _ Hlt Hq).
Qed.

(** C6 (as amended).  For a candidate that reaches the fuzzy layer and a
    gated stored record whose title is text and whose score equals the
    threshold, the verdict is a fuzzy duplicate provided the scan reaches
    that record: every record before it has a text city and, where gated,
    a text title.  When every gated record scores strictly below the
    threshold, no verdict is a fuzzy match: whatever is returned is
    [Unique], and over records that can all be scanned [Unique] is
    returned. *)
Theorem threshold_boundary (event : dict) (sids hashes : gset string)
    (events : list dict) (T : Z) (nt nd nc : string)
    (Hreach : reaches_fuzzy_layer event sids hashes nt nd nc) :
  (forall pre r post,
      events = (pre ++ r :: post)%list ->
      Forall (fun r' => scannable nd nc r' = true) pre ->
      gate nd nc r = true ->
      is_text (py_get r "title" (PStr "")) = true ->
      (title_score nt r == inject_Z T)%Q ->
      exists s, (inject_Z T <= s)%Q
        ∧ is_duplicate event sids hashes events T
          = Ok (true, fuzzy_reason s))
  ∧ ((forall r, r ∈ events -> gate nd nc r = true ->
        (title_score nt r < inject_Z T)%Q) ->
     (forall dup reason,
         is_duplicate event sids hashes events T = Ok (dup, reason) ->
         dup = false ∧ reason = "")
     ∧ (Forall (fun r => scannable nd nc r = true) events ->
        is_duplicate event sids hashes events T = Ok (false, ""))).
Proof.
  rewrite (is_duplicate_reaches _ _ _ events T _ _ _ Hreach). split.
  - intros pre r post -> Hpre Hg Ht Heq.
    apply fuzzy_scan_some_hit; try done.
    rewrite Heq. apply Qle_refl.
  - intros Hlow. split.
    + intros dup reason Hscan.
      destruct (fuzzy_scan_sound _ _ _ _ _ _ _ Hscan)
        as [?|(r & Hin & Hg & Hle & _)]; [done|].
      exfalso. exact (Qlt_not_le _ _ (Hlow r Hin Hg) Hle).
    + intros Hok. by apply fuzzy_scan_no_hit.
Qed.

(** C7 (as amended).  For a candidate that reaches the fuzzy layer, the
    verdict carries the score of the first stored record, in list order,
    that passes the gate and meets the threshold, provided the scan
    reaches it: every record before it has a text city and, where gated, a
    text title, and the record itself has a text title.  The records after
    it, whatever their scores, play no part. *)
Theorem first_over_threshold_wins (event : dict) (sids hashes : gset string)
    (T : Z) (nt nd nc : string) (pre post : list dict) (r : dict)
    (Hreach : reaches_fuzzy_layer event sids hashes nt nd nc)
    (Hpre_ok : Forall (fun r' => scannable nd nc r' = true) pre)
    (Hpre : forall r', r' ∈ pre -> gate nd nc r' = true ->
                       (title_score nt r' < inject_Z T)%Q)
    (Hr_title : is_text (py_get r "title" (PStr "")) = true)
    (Hgate : gate nd nc r = true)
    (Hscore : (inject_Z T <= title_score nt r)%Q) :
  is_duplicate event sids hashes (pre ++ r :: post) T
  = Ok (true, fuzzy_reason (title_score nt r)).
Proof.
  rewrite (is_duplicate_reaches _ _ _ _ T _ _ _ Hreach).
  by apply fuzzy_scan_first_hit.
Qed.

Lemma fuzzy_scan_total (nt nd nc : string) (T : Z) (events : list dict) :
  Forall (fun r => tuple_ok r = true) events ->
  exists dup reason, fuzzy_scan nt nd nc T events = Ok (dup, reason).
Proof.
  induction events as [|r rest IH]; intros Hok.
  - by exists false, "".
  - apply Forall_cons in Hok as [Hr Hok]. rewrite fuzzy_scan_cons by done.
    destruct (_ && _); [eauto|auto].
Qed.

Lemma is_duplicate_total (event : dict) (sids hashes : gset string)
    (events : list dict) (T : Z) :
  is_text (py_get event "title" (PStr "")) = true ->
  is_text (py_get event "city" (PStr "")) = true ->
  Forall (fun r => tuple_ok r = true) events ->
  exists dup reason,
    is_duplicate event sids hashes events T = Ok (dup, reason).
Proof.
  intros Ht Hc Hok. unfold Dedup.is_duplicate.
  destruct (negb _ && bool_decide _); [by eexists _, _|].
  destruct (py_get event "title" (PStr "")) as [t| | |]; try discriminate.
  destruct (py_get event "city" (PStr "")) as [c| | |]; try discriminate.
  rewrite compute_content_hash_text. simpl.
  destruct (bool_decide _); [by eexists _, _|].
  by apply fuzzy_scan_total.
Qed.

(** A missing field reads as the empty string. *)
Lemma py_get_insert_default (d : dict) (k k' : string) :
  d !! k = None ->
  py_get (<[k := PStr ""]> d) k' (PStr "") = py_get d k' (PStr "").
Proof.
  intros Hk. unfold py_get. destruct (decide (k = k')) as [<-|Hne].
  - by rewrite lookup_insert_eq, Hk.
  - by rewrite lookup_insert_ne.
Qed.

Lemma is_duplicate_missing_field (event : dict) (k : string)
    (sids hashes : gset string) (events : list dict) (T : Z) :
  event !! k = None ->
  is_duplicate (<[k := PStr ""]> event) sids hashes events T
  = is_duplicate event sids hashes events T.
Proof.
  intros Hk. unfold Dedup.is_duplicate.
  by rewrite !(py_get_insert_default _ _ _ Hk).
Qed.

(** *** The ingestion loop *)

Lemma is_duplicate_unique_hash (event : dict) (sids hashes : gset string)
    (events : list dict) (T : Z) (reason : string) :
  is_duplicate event sids hashes events T = Ok (false, reason) ->
  exists h,
    compute_content_hash (py_get event "title" (PStr ""))
      (py_get event "start_date" (PStr "")) (py_get event "city" (PStr ""))
    = Ok h.
Proof.
  intros H.
  destruct (is_duplicate_cases _ _ _ _ _ _ _ H)
    as [[? _]|[[? _]|(nt & nc & Ht & Hc & _)]]; try discriminate.
  eexists. by apply compute_content_hash_ok.
Qed.

Lemma prepare_event_row_ok (now : string) (event : dict) (h : string) :
  compute_content_hash (py_get event "title" (PStr ""))
    (py_get event "start_date" (PStr "")) (py_get event "city" (PStr ""))
  = Ok h ->
  exists row, prepare_event_row now event = Ok row
    ∧ length row = length EVENTS_HEADERS.
Proof.
  intros Hh. unfold Dedup.prepare_event_row. rewrite Hh.
  unfold mbind, result_bind. cbv beta iota.
  eexists. split; [reflexivity|]. reflexivity.
Qed.

(** An exception in the body of the [try]: nothing but the error counter
    moves. *)
Lemma process_event_raise (st : loop_state) (event : dict) (e : exn) :
  (try_body event st).2 = Raise e ->
  is_duplicate event (st_source_ids st) (st_content_hashes st)
    (st_events_list st) 85 = Raise e
  ∧ process_event st event = with_stats incr_errors st.
Proof.
  unfold Pipeline.process_event, Pipeline.try_body.
  destruct (is_duplicate event _ _ _ 85) as [[[] reason]|e'] eqn:Hd.
  - destruct (str_contains "source_id" reason);
      [|destruct (str_contains "hash" reason)]; discriminate.
  - destruct (is_duplicate_unique_hash _ _ _ _ _ _ Hd) as [h Hh].
    destruct (prepare_event_row_ok
                (now_isoformat (length (st_new_rows st))) _ _ Hh)
      as (row & -> & _).
    rewrite Hh. discriminate.
  - simpl. intros [= ->]. done.
Qed.

(** A duplicate: one of the three duplicate counters moves, by one. *)
Lemma process_event_dup (st : loop_state) (event : dict) (reason : string) :
  is_duplicate event (st_source_ids st) (st_content_hashes st)
    (st_events_list st) 85 = Ok (true, reason) ->
  process_event st event
  = with_stats
      (if str_contains "source_id" reason then incr_dup_exact
       else if str_contains "hash" reason then incr_dup_hash
       else incr_dup_fuzzy) st.
Proof.
  intros Hd. unfold Pipeline.process_event, Pipeline.try_body. rewrite Hd.
  destruct (str_contains "source_id" reason);
    [|destruct (str_contains "hash" reason)]; reflexivity.
Qed.

(** A new event: its row is appended, it is folded into the index and
    [new] moves by one. *)
Lemma process_event_unique (st : loop_state) (event : dict)
    (reason : string) :
  is_duplicate event (st_source_ids st) (st_content_hashes st)
    (st_events_list st) 85 = Ok (false, reason) ->
  exists row h,
    compute_content_hash (py_get event "title" (PStr ""))
      (py_get event "start_date" (PStr "")) (py_get event "city" (PStr ""))
    = Ok h
    ∧ process_event st event
      = {| st_source_ids :=
             st_source_ids st
             ∪ {[ py_str (py_get event "source_id" (PStr "")) ]};
           st_content_hashes := st_content_hashes st ∪ {[ h ]};
           st_events_list :=
             st_events_list st ++
             [ list_to_map
                 [ ("title", py_get event "title" (PStr ""));
                   ("start_date", py_get event "start_date" (PStr ""));
                   ("city", py_get event "city" (PStr "")) ] ];
           st_new_rows := st_new_rows st ++ [row];
           st_stats := incr_new (st_stats st) |}.
Proof.
  intros Hd. unfold Pipeline.process_event, Pipeline.try_body. rewrite Hd.
  destruct (is_duplicate_unique_hash _ _ _ _ _ _ Hd) as [h Hh].
  destruct (prepare_event_row_ok
              (now_isoformat (length (st_new_rows st))) _ _ Hh)
    as (row & Hrow & _).
  rewrite Hrow, Hh. simpl. eauto.
Qed.

(** Every iteration moves exactly one of the five counters, by one, and
    appends a row exactly when that counter is [new]. *)
Lemma process_event_counts (st : loop_state) (event : dict) :
  (exists f, f ∈ [incr_dup_exact; incr_dup_hash; incr_dup_fuzzy; incr_errors]
     ∧ st_stats (process_event st event) = f (st_stats st)
     ∧ st_new_rows (process_event st event) = st_new_rows st)
  ∨ (exists row,
       st_stats (process_event st event) = incr_new (st_stats st)
       ∧ st_new_rows (process_event st event)
         = (st_new_rows st ++ [row])%list).
Proof.
  destruct (is_duplicate event (st_source_ids st) (st_content_hashes st)
              (st_events_list st) 85) as [[[] reason]|e] eqn:Hd.
  - left. rewrite (process_event_dup _ _ _ Hd).
    destruct (str_contains "source_id" reason);
      [|destruct (str_contains "hash" reason)];
      eexists; (split; [|split; reflexivity]); set_solver.
  - right. destruct (process_event_unique _ _ _ Hd) as (row & h & _ & ->).
    by exists row.
  - left. exists incr_errors.
    assert (Hr : (try_body event st).2 = Raise e).
    { unfold Pipeline.try_body. by rewrite Hd. }
    destruct (process_event_raise _ _ _ Hr) as [_ ->].
    split; [set_solver|done].
Qed.

Lemma process_events_app (st : loop_state) (l1 l2 : list dict) :
  process_events st (l1 ++ l2) = process_events (process_events st l1) l2.
Proof. apply fold_left_app. Qed.

Lemma process_events_invariant (st : loop_state) (all_events : list dict) :
  stats_sum (st_stats (process_events st all_events))
  = (stats_sum (st_stats st) + Z.of_nat (length all_events))%Z
  ∧ (Z.of_nat (length (st_new_rows (process_events st all_events)))
     - new (st_stats (process_events st all_events))
     = Z.of_nat (length (st_new_rows st)) - new (st_stats st))%Z.
Proof.
  revert st. induction all_events as [|event rest IH]; intros st.
  - simpl. split; lia.
  - change (process_events st (event :: rest))
      with (process_events (process_event st event) rest).
    destruct (IH (process_event st event)) as [IH1 IH2].
    rewrite IH1, IH2. clear IH IH1 IH2.
    destruct (process_event_counts st event)
      as [(f & Hf & -> & ->)|(row & -> & ->)].
    + rewrite !elem_of_cons, elem_of_nil in Hf.
      destruct Hf as [->|[->|[->|[->|[]]]]];
        unfold stats_sum; simpl; split; lia.
    + rewrite length_app. unfold stats_sum. simpl. split; lia.
Qed.

(** C10.  After a run the five counters add up to the number of input
    candidates, each iteration having moved exactly one of them by one;
    and the rows handed to [batch_append_events] are as many as [new]. *)
Theorem counters_partition (existing : existing_data)
    (all_events : list dict) :
  let out := deduplicate_and_store existing all_events in
  stats_sum (out_stats out) = Z.of_nat (length all_events)
  ∧ Z.of_nat (length (concat (out_appended out))) = new (out_stats out)
  ∧ Z.of_nat (length (st_new_rows (out_state out))) = new (out_stats out)
  ∧ (forall st event,
       exists f,
         f ∈ [incr_new; incr_dup_exact; incr_dup_hash; incr_dup_fuzzy;
              incr_errors]
         ∧ st_stats (process_event st event) = f (st_stats st)).
Proof.
  simpl.
  destruct (process_events_invariant (Pipeline.initial_state existing)
              all_events) as [Hsum Hrows].
  simpl in Hsum, Hrows.
  assert (Hlen : Z.of_nat (length (st_new_rows
                   (process_events (Pipeline.initial_state existing)
                      all_events)))
                 = new (st_stats
                   (process_events (Pipeline.initial_state existing)
                      all_events))) by lia.
  split; [exact Hsum|]. split; [|split; [exact Hlen|]].
  - rewrite <- Hlen.
    destruct (st_new_rows _) as [|row rows]; [reflexivity|].
    simpl. by rewrite app_nil_r.
  - intros st event.
    destruct (process_event_counts st event)
      as [(f & Hf & Hs & _)|(row & Hs & _)].
    + exists f. split; [by apply list_elem_of_further|exact Hs].
    + exists incr_new. split; [apply list_elem_of_here|exact Hs].
Qed.

(** C8 (as amended).  A candidate whose title and city, where present,
    are text is always given a decision, over stored tuples that can be
    compared: a missing field reads as the empty string, and the empty
    dictionary is decided too.  A candidate whose title or city is present
    and not text raises inside [is_duplicate], unless layer 1 fires first
    (its trimmed source id is non-empty and in the source-id set), in
    which case it is a duplicate by [exact_source_id].  When the body of
    the [try] raises, the loop moves only the error counter, leaves index
    and rows as they were, and goes on with the remaining candidates. *)
Theorem malformed_candidates_isolated :
  (forall (event : dict) (sids hashes : gset string) (events : list dict)
          (T : Z),
      is_text (py_get event "title" (PStr "")) = true ->
      is_text (py_get event "city" (PStr "")) = true ->
      Forall (fun r => tuple_ok r = true) events ->
      exists dup reason,
        is_duplicate event sids hashes events T = Ok (dup, reason))
  ∧ (forall (event : dict) (k : string) (sids hashes : gset string)
            (events : list dict) (T : Z),
        event !! k = None ->
        is_duplicate (<[k := PStr ""]> event) sids hashes events T
        = is_duplicate event sids hashes events T)
  ∧ (forall (sids hashes : gset string) (events : list dict) (T : Z),
        Forall (fun r => tuple_ok r = true) events ->
        exists dup reason,
          is_duplicate ∅ sids hashes events T = Ok (dup, reason))
  ∧ (forall (event : dict) (sids hashes : gset string)
            (events : list dict) (T : Z),
        exact_layer_hits event sids = false ->
        is_text (py_get event "title" (PStr ""))
        && is_text (py_get event "city" (PStr "")) = false ->
        is_duplicate event sids hashes events T = Raise AttributeError)
  ∧ (forall (event : dict) (sids hashes : gset string)
            (events : list dict) (T : Z),
        exact_layer_hits event sids = true ->
        is_duplicate event sids hashes events T
        = Ok (true, "exact_source_id"))
  ∧ (forall (st : loop_state) (event : dict) (e : exn),
        (try_body event st).2 = Raise e ->
        process_event st event = with_stats incr_errors st)
  ∧ (forall (st : loop_state) (pre post : list dict) (event : dict)
            (e : exn),
        (try_body event (process_events st pre)).2 = Raise e ->
        process_events st (pre ++ event :: post)
        = process_events (with_stats incr_errors (process_events st pre))
            post).
Proof.
  split; [|split; [|split; [|split; [|split; [|split]]]]].
  - intros. by apply is_duplicate_total.
  - intros. by apply is_duplicate_missing_field.
  - intros. by apply is_duplicate_total.
  - intros event sids hashes events T Hx Htext.
    unfold Dedup.is_duplicate. unfold exact_layer_hits in Hx. rewrite Hx.
    unfold Dedup.compute_content_hash.
    destruct (py_get event "title" (PStr "")) as [t| | |]; try reflexivity.
    destruct (py_get event "city" (PStr "")) as [c| | |]; try reflexivity.
    discriminate.
  - intros event sids hashes events T Hx.
    unfold Dedup.is_duplicate. unfold exact_layer_hits in Hx.
    by rewrite Hx.
  - intros st event e Hr. by destruct (process_event_raise _ _ _ Hr).
  - intros st pre post event e Hr. rewrite process_events_app.
    change (process_events (process_events st pre) (event :: post))
      with (process_events (process_event (process_events st pre) event)
              post).
    by destruct (process_event_raise _ _ _ Hr) as [_ ->].
Qed.

Lemma py_get_same (e1 e2 : dict) (k : string) (d : pyval) :
  e1 !! k = e2 !! k -> py_get e1 k d = py_get e2 k d.
Proof. unfold py_get. by intros ->. Qed.

(** C1 (as amended).  From an empty index, two candidates with the same
    title, start date and city, both text, such that the second's trimmed
    source id is not the first's source id: the first is [Unique], is
    accepted and folded into the index; the second is then a duplicate by
    [content_hash]. *)
Theorem batch_self_dedup (e1 e2 : dict)
    (Htitle : e1 !! "title" = e2 !! "title")
    (Hdate : e1 !! "start_date" = e2 !! "start_date")
    (Hcity : e1 !! "city" = e2 !! "city")
    (Htext_title : is_text (py_get e1 "title" (PStr "")) = true)
    (Htext_city : is_text (py_get e1 "city" (PStr "")) = true)
    (Hsid : strip (py_str (py_get e2 "source_id" (PStr "")))
            ≠ py_str (py_get e1 "source_id" (PStr ""))) :
  let st1 := process_event (Pipeline.initial_state empty_existing) e1 in
  let out := deduplicate_and_store empty_existing [e1; e2] in
  is_duplicate e1 ∅ ∅ [] 85 = Ok (false, "")
  ∧ st_stats st1 = incr_new zero_stats
  ∧ length (st_new_rows st1) = 1
  ∧ is_duplicate e2 (st_source_ids st1) (st_content_hashes st1)
      (st_events_list st1) 85 = Ok (true, "content_hash")
  ∧ out_stats out
    = {| new := 1; dup_exact := 0; dup_hash := 1; dup_fuzzy := 0;
         errors := 0 |}
  ∧ length (st_new_rows (out_state out)) = 1.
Proof.
  intros st1 out.
  destruct (py_get e1 "title" (PStr "")) as [t| | |] eqn:Ht;
    try discriminate.
  destruct (py_get e1 "city" (PStr "")) as [c| | |] eqn:Hc;
    try discriminate.
  assert (H1 : is_duplicate e1 ∅ ∅ [] 85 = Ok (false, "")).
  { rewrite (is_duplicate_reaches e1 ∅ ∅ [] 85 (normalize_str t)
               (normalize_date (py_get e1 "start_date" (PStr "")))
               (normalize_str c)); [reflexivity|].
    unfold Dedup.reaches_fuzzy_layer. rewrite Ht, Hc.
    repeat split; [right|]; apply not_elem_of_empty. }
  destruct (process_event_unique (Pipeline.initial_state empty_existing)
              e1 "" H1) as (row & h & Hh & Hst1).
  fold st1 in Hst1. simpl in Hst1.
  assert (H2 : is_duplicate e2 (st_source_ids st1) (st_content_hashes st1)
                 (st_events_list st1) 85 = Ok (true, "content_hash")).
  { rewrite Hst1. simpl. unfold Dedup.is_duplicate.
    rewrite (bool_decide_eq_false_2
               (strip (py_str (py_get e2 "source_id" (PStr "")))
                ∈ (∅ : gset string)
                  ∪ {[ py_str (py_get e1 "source_id" (PStr "")) ]}))
      by (rewrite elem_of_union, elem_of_empty, elem_of_singleton; tauto).
    rewrite andb_false_r.
    rewrite <- (py_get_same e1 e2 "title" _ Htitle),
      <- (py_get_same e1 e2 "start_date" _ Hdate),
      <- (py_get_same e1 e2 "city" _ Hcity).
    rewrite Hh. simpl.
    rewrite bool_decide_eq_true_2 by set_solver. reflexivity. }
  assert (Hout : out_state out = with_stats incr_dup_hash st1).
  { unfold out, Pipeline.deduplicate_and_store, Pipeline.process_events.
    simpl. fold st1. by rewrite (process_event_dup st1 e2 _ H2). }
  split; [exact H1|]. split; [by rewrite Hst1|]. split; [by rewrite Hst1|].
  split; [exact H2|].
  change (out_stats out) with (st_stats (out_state out)).
  rewrite Hout, Hst1. split; reflexivity.
Qed.

(** What the fold does with the source id of an accepted candidate: its
    stringified form joins the set, empty or not. *)
Lemma fold_adds_source_id (st : loop_state) (event : dict)
    (reason : string) :
  is_duplicate event (st_source_ids st) (st_content_hashes st)
    (st_events_list st) 85 = Ok (false, reason) ->
  py_str (py_get event "source_id" (PStr ""))
    ∈ st_source_ids (process_event st event).
Proof.
  intros Hd. destruct (process_event_unique _ _ _ Hd) as (row & h & _ & ->).
  simpl. set_solver.
Qed.

End EngineProperties.

(** ** The engine on concrete inputs *)

Ltac by_evaluation :=
  first
    [ reflexivity
    | vm_compute; first [reflexivity | discriminate | exact I]
    | apply (bool_decide_unpack _); vm_compute; exact I ].

(** Discharges [forall r, r ∈ l -> gate .. r = true -> score < T] on a
    concrete list: a tuple either fails the gate or scores below [T]. *)
Ltac each_tuple :=
  let r := fresh "r" in
  let Hin := fresh "Hin" in
  let Hg := fresh "Hg" in
  intros r Hin;
  repeat (apply elem_of_cons in Hin; destruct Hin as [->|Hin];
          [first [ intros _; by_evaluation
                 | intros Hg; vm_compute in Hg; discriminate Hg ]|]);
  apply elem_of_nil in Hin; destruct Hin.

Ltac all_tuples_ok :=
  repeat (apply List.Forall_cons; [by_evaluation|]); apply List.Forall_nil.

Lemma fingerprint_normalization_invariance_witness :
  Dedup.compute_content_hash Reference.digest
    (PStr "  AI Summit,  2025 ") (PStr "2025-06-01 09:30:00") (PStr "PUNE")
  = Dedup.compute_content_hash Reference.digest
      (PStr "ai summit 2025") (PStr "2025-06-01") (PStr "Pune").
Proof.
  apply (proj1 (fingerprint_normalization_invariance Reference.digest));
    by_evaluation.
Defined.

Lemma exact_source_id_has_priority_witness :
  ref_is_duplicate
    (mk_event "AI Summit 2025" "2025-06-01" "Pune" " eb_1 ")
    {[ "eb_1" ]} {[ "ai summit 2025|2025-06-01|pune" ]}
    [mk_tuple "AI Summit 2025" "2025-06-01" "Pune"] 85
  = Ok (true, "exact_source_id").
Proof. apply exact_source_id_has_priority; by_evaluation. Defined.

(** The scenario of three listings of one summit: one accepted, two
    duplicates by content hash. *)
Example three_listings_one_event :
  out_stats
    (ref_run empty_existing
       [ mk_event "AI Summit 2025" "2025-06-01" "Pune" "eb_1";
         mk_event "AI Summit 2025" "2025-06-01" "Pune" "mu_7";
         mk_event "ai summit  2025" "2025-06-01" "pune" "ae_3" ])
  = {| new := 1; dup_exact := 0; dup_hash := 2; dup_fuzzy := 0;
       errors := 0 |}.
Proof. vm_compute. reflexivity. Qed.

Lemma batch_self_dedup_witness :
  ref_is_duplicate (mk_event "AI Summit 2025" "2025-06-01" "Pune" "mu_7")
    {[ "eb_1" ]} {[ "ai summit 2025|2025-06-01|pune" ]}
    [mk_tuple "AI Summit 2025" "2025-06-01" "Pune"] 85
  = Ok (true, "content_hash")
  ∧ out_stats
      (ref_run empty_existing
         [ mk_event "AI Summit 2025" "2025-06-01" "Pune" "eb_1";
           mk_event "AI Summit 2025" "2025-06-01" "Pune" "mu_7" ])
    = {| new := 1; dup_exact := 0; dup_hash := 1; dup_fuzzy := 0;
         errors := 0 |}.
Proof.
  pose proof
    (batch_self_dedup Reference.digest Reference.token_sort_ratio
       Reference.fmt_score Reference.now_isoformat
       (mk_event "AI Summit 2025" "2025-06-01" "Pune" "eb_1")
       (mk_event "AI Summit 2025" "2025-06-01" "Pune" "mu_7")
       ltac:(by_evaluation) ltac:(by_evaluation) ltac:(by_evaluation)
       ltac:(by_evaluation) ltac:(by_evaluation) ltac:(by_evaluation))
    as (_ & _ & _ & H2 & Hout & _).
  split; [|exact Hout].
  vm_compute in H2. vm_compute. exact H2.
Defined.

(** C1 (as stated) fails: the two source ids ["eb_1"] and ["eb_1 "] are
    different and non-empty, yet the second candidate is a duplicate by
    [exact_source_id], not by [content_hash]: the set holds the first id
    as it is and the lookup trims the second. *)
Lemma batch_self_dedup_counterexample :
  let e1 := mk_event "AI Summit 2025" "2025-06-01" "Pune" "eb_1" in
  let e2 := mk_event "AI Summit 2025" "2025-06-01" "Pune" "eb_1 " in
  let st1 :=
    Pipeline.process_event Reference.digest Reference.token_sort_ratio
      Reference.fmt_score Reference.now_isoformat
      (Pipeline.initial_state empty_existing) e1 in
  py_get e1 "source_id" (PStr "") ≠ py_get e2 "source_id" (PStr "")
  ∧ e1 !! "title" = e2 !! "title"
  ∧ e1 !! "start_date" = e2 !! "start_date"
  ∧ e1 !! "city" = e2 !! "city"
  ∧ ref_is_duplicate e1 ∅ ∅ [] 85 = Ok (false, "")
  ∧ ref_is_duplicate e2 (st_source_ids st1) (st_content_hashes st1)
      (st_events_list st1) 85 = Ok (true, "exact_source_id")
  ∧ out_stats (ref_run empty_existing [e1; e2])
    = {| new := 1; dup_exact := 1; dup_hash := 0; dup_fuzzy := 0;
         errors := 0 |}.
Proof.
  intros e1 e2 st1. split; [vm_compute; discriminate|].
  repeat (split; [vm_compute; reflexivity|]). vm_compute. reflexivity.
Qed.


(** The scenario of the unknown date: a stored Pune event without a date
    and a candidate without a date and a near-identical title do not
    fuzzy-match. *)
Example empty_date_never_fuzzy :
  ref_is_duplicate (mk_event "AI Summit 2025!" "" "Pune" "mu_7")
    {[ "eb_1" ]} {[ "ai summit 2025 pune||pune" ]}
    [ mk_tuple "AI Summit 2025 Pune" "" "Pune" ] 85
  = Ok (false, "").
Proof. vm_compute. reflexivity. Qed.


(** A score of exactly 85 is a match at the default threshold; the same
    pair is no match when the threshold is 86.  The record in front, of
    another date, has a title that is not text: it is passed over without
    its title being read. *)
Lemma threshold_boundary_witness :
  (exists s, (inject_Z 85 <= s)%Q
     ∧ ref_is_duplicate
         (mk_event "Summer Music Fest 25" "2025-07-12" "Goa" "mu_3")
         {[ "eb_1" ]} {[ "summer music fair 25|2025-07-12|goa" ]}
         ([ <[ "title" := PInt 2025 ]> (mk_tuple "" "2025-07-13" "Goa") ]
          ++ mk_tuple "Summer Music Fair 25" "2025-07-12" "Goa" :: [])
         85
       = Ok (true, Dedup.fuzzy_reason Reference.fmt_score s))
  ∧ ref_is_duplicate
      (mk_event "Summer Music Fest 25" "2025-07-12" "Goa" "mu_3")
      {[ "eb_1" ]} {[ "summer music fair 25|2025-07-12|goa" ]}
      [ <[ "title" := PInt 2025 ]> (mk_tuple "" "2025-07-13" "Goa");
        mk_tuple "Summer Music Fair 25" "2025-07-12" "Goa" ] 86
    = Ok (false, "").
Proof.
  assert (Hreach :
    Dedup.reaches_fuzzy_layer Reference.digest
      (mk_event "Summer Music Fest 25" "2025-07-12" "Goa" "mu_3")
      {[ "eb_1" ]} {[ "summer music fair 25|2025-07-12|goa" ]}
      "summer music fest 25" "2025-07-12" "goa").
  { repeat split; [right|..]; by_evaluation. }
  split.
  - apply (proj1
      (threshold_boundary Reference.digest Reference.token_sort_ratio
         Reference.fmt_score _ _ _ _ 85 _ _ _ Hreach)
      [ <[ "title" := PInt 2025 ]> (mk_tuple "" "2025-07-13" "Goa") ]
      (mk_tuple "Summer Music Fair 25" "2025-07-12" "Goa") []).
    + reflexivity.
    + all_tuples_ok.
    + by_evaluation.
    + by_evaluation.
    + by_evaluation.
  - apply (proj2
      (threshold_boundary Reference.digest Reference.token_sort_ratio
         Reference.fmt_score _ _ _ _ 86 _ _ _ Hreach)).
    + each_tuple.
    + all_tuples_ok.
Defined.

(** C6 (as stated) fails: the candidate reaches the fuzzy layer and the
    second stored record is gated and scores exactly 85, but the record in
    front of it has a city that is not text, and [is_duplicate] raises
    instead of returning a fuzzy match. *)
Lemma threshold_boundary_counterexample :
  let event := mk_event "Summer Music Fest 25" "2025-07-12" "Goa" "mu_3" in
  let gated := mk_tuple "Summer Music Fair 25" "2025-07-12" "Goa" in
  let events :=
    [ <[ "city" := PInt 7 ]> (mk_tuple "Rock Concert" "2025-07-12" ""); gated ]
  in
  Dedup.reaches_fuzzy_layer Reference.digest event {[ "eb_1" ]}
    {[ "summer music fair 25|2025-07-12|goa" ]}
    "summer music fest 25" "2025-07-12" "goa"
  ∧ gated ∈ events
  ∧ Dedup.gate "2025-07-12" "goa" gated = true
  ∧ (Dedup.title_score Reference.token_sort_ratio "summer music fest 25"
       gated == inject_Z 85)%Q
  ∧ ref_is_duplicate event {[ "eb_1" ]}
      {[ "summer music fair 25|2025-07-12|goa" ]} events 85
    = Raise AttributeError.
Proof.
  intros event gated events.
  split; [repeat split; [right|..]; by_evaluation|].
  split; [apply list_elem_of_further, list_elem_of_here|].
  repeat split; by_evaluation.
Qed.

(** Of two stored tuples over the threshold the first is reported (score
    4000/45), not the later and closer one (score 5000/51); tuples of
    another date or below the threshold are passed over. *)
Lemma first_over_threshold_wins_witness :
  ref_is_duplicate
    (mk_event "Jazz Nights Live Festival" "2025-03-01" "Mumbai" "mu_9")
    {[ "eb_1" ]} ∅
    ([ mk_tuple "Jazz Nights Live Festivals" "2025-03-02" "Mumbai";
       mk_tuple "Rock Concert" "2025-03-01" "Mumbai" ]
     ++ mk_tuple "Jazz Night Live Fest" "2025-03-01" "Mumbai"
     :: [ mk_tuple "Jazz Nights Live Festivals" "2025-03-01" "Mumbai" ])
    85
  = Ok (true, "fuzzy_match_4000/45pct").
Proof.
  apply (first_over_threshold_wins Reference.digest
           Reference.token_sort_ratio Reference.fmt_score
           (mk_event "Jazz Nights Live Festival" "2025-03-01" "Mumbai"
              "mu_9")
           {[ "eb_1" ]} ∅ 85
           "jazz nights live festival" "2025-03-01" "mumbai").
  - repeat split; [right|..]; by_evaluation.
  - all_tuples_ok.
  - each_tuple.
  - by_evaluation.
  - by_evaluation.
  - by_evaluation.
Defined.

(** C7 (as stated) fails: two stored records pass the gate and meet the
    threshold, but a record in front of them has a city that is not text,
    and [is_duplicate] raises instead of returning the score of the first
    of the two. *)
Lemma first_over_threshold_wins_counterexample :
  let event :=
    mk_event "Jazz Nights Live Festival" "2025-03-01" "Mumbai" "mu_9" in
  let first := mk_tuple "Jazz Night Live Fest" "2025-03-01" "Mumbai" in
  let second :=
    mk_tuple "Jazz Nights Live Festivals" "2025-03-01" "Mumbai" in
  let events :=
    [ <[ "city" := PInt 7 ]> (mk_tuple "Rock Concert" "2025-03-01" "");
      first; second ] in
  Dedup.reaches_fuzzy_layer Reference.digest event {[ "eb_1" ]} ∅
    "jazz nights live festival" "2025-03-01" "mumbai"
  ∧ Dedup.gate "2025-03-01" "mumbai" first = true
  ∧ (inject_Z 85
     <= Dedup.title_score Reference.token_sort_ratio
          "jazz nights live festival" first)%Q
  ∧ Dedup.gate "2025-03-01" "mumbai" second = true
  ∧ (inject_Z 85
     <= Dedup.title_score Reference.token_sort_ratio
          "jazz nights live festival" second)%Q
  ∧ ref_is_duplicate event {[ "eb_1" ]} ∅ events 85
    = Raise AttributeError.
Proof.
  intros event first second events.
  split; [repeat split; [right|..]; by_evaluation|].
  repeat split; by_evaluation.
Qed.

(** The verdict depends on the order of the stored tuples: with the two
    qualifying tuples swapped, the other score is reported. *)
Example fuzzy_verdict_follows_list_order :
  ref_is_duplicate
    (mk_event "Jazz Nights Live Festival" "2025-03-01" "Mumbai" "mu_9")
    {[ "eb_1" ]} ∅
    [ mk_tuple "Jazz Nights Live Festivals" "2025-03-01" "Mumbai";
      mk_tuple "Jazz Night Live Fest" "2025-03-01" "Mumbai" ] 85
  = Ok (true, "fuzzy_match_5000/51pct")
  ∧ ref_is_duplicate
      (mk_event "Jazz Nights Live Festival" "2025-03-01" "Mumbai" "mu_9")
      {[ "eb_1" ]} ∅
      [ mk_tuple "Jazz Night Live Fest" "2025-03-01" "Mumbai";
        mk_tuple "Jazz Nights Live Festivals" "2025-03-01" "Mumbai" ] 85
    = Ok (true, "fuzzy_match_4000/45pct").
Proof. split; vm_compute; reflexivity. Qed.

(** A candidate with no field at all but a source id is decided; one
    whose city is a number raises; one whose title is [None] but whose
    source id is known is a duplicate by [exact_source_id]; and a run
    counts a raising candidate as an error and goes on to the next. *)
Lemma malformed_candidates_isolated_witness :
  (exists dup reason,
     ref_is_duplicate {[ "source_id" := PStr "eb_1" ]} ∅ ∅
       [ mk_tuple "AI Summit 2025" "2025-06-01" "Pune" ] 85
     = Ok (dup, reason))
  ∧ ref_is_duplicate
      (<[ "city" := PInt 7 ]> (mk_event "AI Summit 2025" "2025-06-01" "" "mu_7"))
      {[ "eb_1" ]} {[ "ai summit 2025|2025-06-01|pune" ]}
      [ mk_tuple "AI Summit 2025" "2025-06-01" "Pune" ] 85
    = Raise AttributeError
  ∧ ref_is_duplicate
      (<[ "title" := PNone ]> (mk_event "" "2025-06-01" "Pune" " eb_1 "))
      {[ "eb_1" ]} ∅ [] 85
    = Ok (true, "exact_source_id")
  ∧ Pipeline.process_events Reference.digest Reference.token_sort_ratio
      Reference.fmt_score Reference.now_isoformat
      (Pipeline.initial_state empty_existing)
      ([] ++ <[ "title" := PNone ]> (mk_event "" "2025-06-01" "Pune" "eb_1")
          :: [ mk_event "AI Summit 2025" "2025-06-01" "Pune" "eb_2" ])
    = Pipeline.process_events Reference.digest Reference.token_sort_ratio
        Reference.fmt_score Reference.now_isoformat
        (with_stats incr_errors
           (Pipeline.process_events Reference.digest
              Reference.token_sort_ratio Reference.fmt_score
              Reference.now_isoformat
              (Pipeline.initial_state empty_existing) []))
        [ mk_event "AI Summit 2025" "2025-06-01" "Pune" "eb_2" ].
Proof.
  pose proof
    (malformed_candidates_isolated Reference.digest
       Reference.token_sort_ratio Reference.fmt_score
       Reference.now_isoformat)
    as (Htotal & _ & _ & Hraise & Hexact & _ & Hbatch).
  split; [|split; [|split]].
  - apply Htotal; [by_evaluation|by_evaluation|all_tuples_ok].
  - apply Hraise; by_evaluation.
  - apply Hexact. by_evaluation.
  - apply (Hbatch _ _ _ _ AttributeError). by_evaluation.
Defined.

(** C8 (as stated) fails: a candidate dictionary whose title is [None] is
    not given a decision, [is_duplicate] raises; the run counts it under
    [errors]. *)
Lemma malformed_candidates_isolated_counterexample :
  ref_is_duplicate
    (<[ "title" := PNone ]> (mk_event "" "2025-06-01" "Pune" "eb_1"))
    ∅ ∅ [] 85
  = Raise AttributeError
  ∧ out_stats
      (ref_run empty_existing
         [ <[ "title" := PNone ]> (mk_event "" "2025-06-01" "Pune" "eb_1") ])
    = {| new := 0; dup_exact := 0; dup_hash := 0; dup_fuzzy := 0;
         errors := 1 |}.
Proof. split; vm_compute; reflexivity. Qed.

(** C9: the fold at a candidate without a source id.  The set starts
    without the empty string; the candidate is accepted; the empty string
    is in the set afterwards. *)
Lemma fold_adds_empty_source_id :
  let event : dict :=
    list_to_map
      [ ("title", PStr "AI Summit 2025"); ("start_date", PStr "2025-06-01");
        ("city", PStr "Pune") ] in
  let out := ref_run empty_existing [event] in
  ("" ∉ source_ids empty_existing)
  ∧ new (out_stats out) = 1%Z
  ∧ ("" ∈ st_source_ids (out_state out)).
Proof.
  intros event out. split; [apply not_elem_of_empty|].
  split; [vm_compute; reflexivity|].
  apply (bool_decide_unpack _). vm_compute. exact I.
Qed.

(** ** Sheet rows, the loader and the working index *)

Lemma normalize_text_ok_iff (v : pyval) :
  (exists n, normalize_text v = Ok n) <-> is_text v = true.
Proof.
  destruct v; simpl; split; try done; try (intros [n [=]]); eauto.
Qed.

Lemma str_take_length_le (n : nat) (s : string) :
  String.length (str_take n s) <= String.length s.
Proof.
  revert s. induction n as [|n IH]; intros [|c s]; simpl; try lia.
  specialize (IH s). lia.
Qed.

Section RowProperties.

Variable sha256_hexdigest : string -> string.

Local Abbreviation compute_content_hash :=
  (Dedup.compute_content_hash sha256_hexdigest).
Local Abbreviation prepare_event_row :=
  (Dedup.prepare_event_row sha256_hexdigest).

Lemma compute_content_hash_ok_iff (t d c : pyval) :
  (exists h, compute_content_hash t d c = Ok h)
  <-> is_text t = true ∧ is_text c = true.
Proof.
  split.
  - intros [h Hh].
    apply compute_content_hash_inv in Hh as (nt & nc & Ht & Hc & _).
    split; apply normalize_text_ok_iff; eauto.
  - intros [[nt Ht]%normalize_text_ok_iff [nc Hc]%normalize_text_ok_iff].
    eexists. by apply compute_content_hash_ok.
Qed.

(** The row in closed form, once the fingerprint is known. *)
Lemma prepare_event_row_cells (now : string) (event : dict) (h : string) :
  compute_content_hash (py_get event "title" (PStr ""))
    (py_get event "start_date" (PStr "")) (py_get event "city" (PStr ""))
  = Ok h ->
  prepare_event_row now event
  = Ok [ PStr h;
         py_get event "title" (PStr "");
         py_get event "start_date" (PStr "");
         py_get event "end_date" (PStr "");
         py_get event "city" (PStr "");
         py_get event "country" (PStr "India");
         py_get event "platform" (PStr "");
         PStr (py_str (py_get event "source_id" (PStr "")));
         py_get event "url" (PStr "");
         py_get event "category" (PStr "");
         py_get event "price" (PStr "Free");
         PStr (if py_truthy (py_get event "is_free" (PBool true))
               then "TRUE" else "FALSE");
         py_get event "organizer" (PStr "");
         PStr (str_take 500
                 (py_str (py_get event "description" (PStr ""))));
         py_get event "attendee_count" (PStr "");
         py_get event "image_url" (PStr "");
         PStr now;
         PStr "TRUE" ].
Proof.
  intros Hh. unfold Dedup.prepare_event_row. rewrite Hh.
  unfold mbind, result_bind. cbv beta iota. reflexivity.
Qed.

Lemma prepare_event_row_hash (now : string) (event : dict)
    (row : list pyval) :
  prepare_event_row now event = Ok row ->
  exists h,
    compute_content_hash (py_get event "title" (PStr ""))
      (py_get event "start_date" (PStr "")) (py_get event "city" (PStr ""))
    = Ok h.
Proof.
  unfold Dedup.prepare_event_row.
  destruct (compute_content_hash _ _ _) as [h|e]; [eauto|discriminate].
Qed.

(** X1.  A row is built exactly for the events whose title and city, where
    present, are text; any other event raises.  A row that is built has
    one cell per column of the sheet. *)
Theorem prepare_event_row_defined (now : string) (event : dict) :
  ((exists row, prepare_event_row now event = Ok row)
   <-> is_text (py_get event "title" (PStr "")) = true
       ∧ is_text (py_get event "city" (PStr "")) = true)
  ∧ (forall row, prepare_event_row now event = Ok row ->
       length row = length EVENTS_HEADERS)
  ∧ (forall e, prepare_event_row now event = Raise e ->
       is_text (py_get event "title" (PStr "")) = false
       ∨ is_text (py_get event "city" (PStr "")) = false).
Proof.
  destruct (compute_content_hash (py_get event "title" (PStr ""))
              (py_get event "start_date" (PStr ""))
              (py_get event "city" (PStr ""))) as [h|e0] eqn:Hh.
  - assert (Hok := proj1 (compute_content_hash_ok_iff _ _ _)
                     (ex_intro _ h Hh)).
    rewrite (prepare_event_row_cells now event h Hh).
    split; [split; [done|eauto]|].
    split; [by intros row [= <-]|discriminate].
  - assert (Hrow : prepare_event_row now event = Raise e0).
    { unfold Dedup.prepare_event_row. by rewrite Hh. }
    rewrite Hrow. split; [split|split].
    + by intros [row [=]].
    + intros Hok.
      destruct (proj2 (compute_content_hash_ok_iff _
                         (py_get event "start_date" (PStr "")) _) Hok)
        as [h Hh'].
      rewrite Hh' in Hh. discriminate.
    + discriminate.
    + intros _ _.
      destruct (is_text (py_get event "title" (PStr ""))) eqn:Ht;
        [|by left].
      destruct (is_text (py_get event "city" (PStr ""))) eqn:Hc;
        [|by right].
      destruct (proj2 (compute_content_hash_ok_iff _
                         (py_get event "start_date" (PStr "")) _)
                  (conj Ht Hc)) as [h Hh'].
      rewrite Hh' in Hh. discriminate.
Qed.

(** X2.  The hash cell of a row is the fingerprint of the row's own title,
    start-date and city cells, and it is the fingerprint of the event. *)
Theorem row_hash_matches_row_cells (now : string) (event : dict)
    (row : list pyval) :
  prepare_event_row now event = Ok row ->
  exists h t d c,
    row_cell row "content_hash" = Some (PStr h)
    ∧ row_cell row "title" = Some t
    ∧ row_cell row "start_date" = Some d
    ∧ row_cell row "city" = Some c
    ∧ compute_content_hash t d c = Ok h
    ∧ compute_content_hash (py_get event "title" (PStr ""))
        (py_get event "start_date" (PStr ""))
        (py_get event "city" (PStr "")) = Ok h.
Proof.
  intros Hrow.
  destruct (prepare_event_row_hash now event row Hrow) as [h Hh].
  rewrite (prepare_event_row_cells now event h Hh) in Hrow.
  injection Hrow as <-.
  exists h, (py_get event "title" (PStr "")),
    (py_get event "start_date" (PStr "")), (py_get event "city" (PStr "")).
  repeat split; try reflexivity; exact Hh.
Qed.

(** X3.  In every row the description is cut to at most 500 characters,
    the free flag is the text TRUE or FALSE, the source id is text, and
    the row is marked active. *)
Theorem row_cells_bounded (now : string) (event : dict)
    (row : list pyval) :
  prepare_event_row now event = Ok row ->
  (exists d, row_cell row "description" = Some (PStr d)
     ∧ String.length d <= 500
     ∧ String.length d
       <= String.length (py_str (py_get event "description" (PStr ""))))
  ∧ (row_cell row "is_free" = Some (PStr "TRUE")
     ∨ row_cell row "is_free" = Some (PStr "FALSE"))
  ∧ row_cell row "source_id"
    = Some (PStr (py_str (py_get event "source_id" (PStr ""))))
  ∧ row_cell row "is_active" = Some (PStr "TRUE")
  ∧ row_cell row "scraped_at" = Some (PStr now).
Proof.
  intros Hrow.
  destruct (prepare_event_row_hash now event row Hrow) as [h Hh].
  rewrite (prepare_event_row_cells now event h Hh) in Hrow.
  injection Hrow as <-.
  split; [|split; [|repeat split]].
  - exists (str_take 500 (py_str (py_get event "description" (PStr "")))).
    split; [reflexivity|].
    split; [apply str_take_length|apply str_take_length_le].
  - destruct (py_truthy (py_get event "is_free" (PBool true)));
      [by left|by right].
Qed.

End RowProperties.

(** *** The loader *)

Lemma pretty_N_go_length (x : N) (s : string) :
  String.length s <= String.length (pretty_N_go x s).
Proof.
  revert s. induction (N.lt_wf_0 x) as [x _ IH]; intros s.
  destruct (decide (x = 0)%N) as [->|Hx]; [by rewrite pretty_N_go_0|].
  rewrite pretty_N_go_step by lia.
  etrans; [|apply IH, N.div_lt; lia]. simpl. lia.
Qed.

Lemma pretty_Z_nonempty (z : Z) : pretty z ≠ "".
Proof.
  assert (Hpos : forall p : positive, pretty p ≠ "").
  { intros p. unfold pretty, pretty_positive, pretty, pretty_N.
    rewrite decide_False by done.
    rewrite pretty_N_go_step by lia. intros Heq.
    pose proof (pretty_N_go_length (N.pos p `div` 10)
                  (String (pretty_N_char (N.pos p `mod` 10)) "")) as Hlen.
    rewrite Heq in Hlen. simpl in Hlen. lia. }
  destruct z as [|p|p]; unfold pretty, pretty_Z; [done|apply Hpos|done].
Qed.

(** A value that counts as true never prints as the empty string. *)
Lemma py_str_truthy (v : pyval) : py_truthy v = true -> py_str v ≠ "".
Proof.
  destruct v as [s|z|[]|]; simpl; try done.
  - by destruct s.
  - intros _. apply pretty_Z_nonempty.
Qed.

Lemma load_fold_source_ids (records : list dict) (acc : existing_data)
    (s : string) :
  s ∈ source_ids (fold_left Sheets.load_row records acc)
  <-> s ∈ source_ids acc
      ∨ exists row, row ∈ records
          ∧ py_truthy (py_get row "source_id" PNone) = true
          ∧ s = py_str (py_get row "source_id" PNone).
Proof.
  revert acc. induction records as [|row rest IH]; intros acc; simpl.
  - split; [by left|]. intros [H|(row & Hin & _)]; [done|].
    by apply elem_of_nil in Hin.
  - rewrite IH. simpl. split.
    + intros [H|(row' & Hin & Ht & Hs)].
      * destruct (py_truthy (py_get row "source_id" PNone)) eqn:Ht;
          [|by left].
        apply elem_of_union in H as [H|H]; [by left|].
        apply elem_of_singleton in H. right. exists row.
        split; [apply list_elem_of_here|done].
      * right. exists row'. split; [by apply list_elem_of_further|done].
    + intros [H|(row' & Hin & Ht & Hs)].
      * left. destruct (py_truthy _); [|done].
        apply elem_of_union. by left.
      * apply elem_of_cons in Hin as [->|Hin].
        -- left. rewrite Ht. apply elem_of_union. right.
           by apply elem_of_singleton.
        -- right. by exists row'.
Qed.

Lemma load_fold_content_hashes (records : list dict) (acc : existing_data)
    (h : string) :
  h ∈ content_hashes (fold_left Sheets.load_row records acc)
  <-> h ∈ content_hashes acc
      ∨ exists row, row ∈ records
          ∧ py_truthy (py_get row "content_hash" PNone) = true
          ∧ h = py_str (py_get row "content_hash" PNone).
Proof.
  revert acc. induction records as [|row rest IH]; intros acc; simpl.
  - split; [by left|]. intros [H|(row & Hin & _)]; [done|].
    by apply elem_of_nil in Hin.
  - rewrite IH. simpl. split.
    + intros [H|(row' & Hin & Ht & Hs)].
      * destruct (py_truthy (py_get row "content_hash" PNone)) eqn:Ht;
          [|by left].
        apply elem_of_union in H as [H|H]; [by left|].
        apply elem_of_singleton in H. right. exists row.
        split; [apply list_elem_of_here|done].
      * right. exists row'. split; [by apply list_elem_of_further|done].
    + intros [H|(row' & Hin & Ht & Hs)].
      * left. destruct (py_truthy _); [|done].
        apply elem_of_union. by left.
      * apply elem_of_cons in Hin as [->|Hin].
        -- left. rewrite Ht. apply elem_of_union. right.
           by apply elem_of_singleton.
        -- right. by exists row'.
Qed.

Lemma load_fold_events_list (records : list dict) (acc : existing_data) :
  events_list (fold_left Sheets.load_row records acc)
  = (events_list acc
     ++ ((fun row : dict =>
            list_to_map
              [ ("title", py_get row "title" (PStr ""));
                ("start_date",
                  PStr (py_str (py_get row "start_date" (PStr ""))));
                ("city", py_get row "city" (PStr "")) ]) <$> records))%list.
Proof.
  revert acc. induction records as [|row rest IH]; intros acc; simpl.
  - by rewrite app_nil_r.
  - rewrite IH. simpl. by rewrite <- app_assoc.
Qed.

Lemma load_source_ids_iff (records : list dict) (s : string) :
  s ∈ source_ids (Sheets.load_existing_events records)
  <-> exists row, row ∈ records
        ∧ py_truthy (py_get row "source_id" PNone) = true
        ∧ s = py_str (py_get row "source_id" PNone).
Proof.
  unfold Sheets.load_existing_events. simpl.
  rewrite load_fold_source_ids. simpl. split; [|by right].
  intros [H|H]; [by apply not_elem_of_empty in H|done].
Qed.

Lemma load_content_hashes_iff (records : list dict) (h : string) :
  h ∈ content_hashes (Sheets.load_existing_events records)
  <-> exists row, row ∈ records
        ∧ py_truthy (py_get row "content_hash" PNone) = true
        ∧ h = py_str (py_get row "content_hash" PNone).
Proof.
  unfold Sheets.load_existing_events. simpl.
  rewrite load_fold_content_hashes. simpl. split; [|by right].
  intros [H|H]; [by apply not_elem_of_empty in H|done].
Qed.

(** X4.  What the loader keeps: a string is a known source id exactly when
    some stored record has it as the text of a non-empty (true) source-id
    cell, and likewise for the content hashes.  In particular the empty
    string is in neither set. *)
Theorem load_existing_events_sets (records : list dict) :
  (forall s,
      s ∈ source_ids (Sheets.load_existing_events records)
      <-> exists row, row ∈ records
            ∧ py_truthy (py_get row "source_id" PNone) = true
            ∧ s = py_str (py_get row "source_id" PNone))
  ∧ (forall h,
        h ∈ content_hashes (Sheets.load_existing_events records)
        <-> exists row, row ∈ records
              ∧ py_truthy (py_get row "content_hash" PNone) = true
              ∧ h = py_str (py_get row "content_hash" PNone))
  ∧ ("" ∉ source_ids (Sheets.load_existing_events records))
  ∧ ("" ∉ content_hashes (Sheets.load_existing_events records)).
Proof.
  pose proof (load_source_ids_iff records) as Hs.
  pose proof (load_content_hashes_iff records) as Hh.
  split; [exact Hs|]. split; [exact Hh|]. split.
  - intros (row & _ & Ht & Heq)%Hs. by apply py_str_truthy in Ht.
  - intros (row & _ & Ht & Heq)%Hh. by apply py_str_truthy in Ht.
Qed.

(** X5.  The loader keeps one tuple per stored record, in the order of the
    records: the tuple at a position carries the title and city of the
    record at that position as they are, and its start date as text.  The
    total is the number of records. *)
Theorem load_existing_events_tuples (records : list dict) :
  total (Sheets.load_existing_events records) = Z.of_nat (length records)
  ∧ length (events_list (Sheets.load_existing_events records))
    = length records
  ∧ (forall (i : nat) (row : dict), records !! i = Some row ->
       exists tuple : dict,
         events_list (Sheets.load_existing_events records) !! i
         = Some tuple
         ∧ py_get tuple "title" (PStr "") = py_get row "title" (PStr "")
         ∧ py_get tuple "city" (PStr "") = py_get row "city" (PStr "")
         ∧ py_get tuple "start_date" (PStr "")
           = PStr (py_str (py_get row "start_date" (PStr "")))
         ∧ Dedup.tuple_ok tuple
           = is_text (py_get row "city" (PStr ""))
             && is_text (py_get row "title" (PStr ""))).
Proof.
  unfold Sheets.load_existing_events. simpl.
  rewrite load_fold_events_list. simpl.
  split; [reflexivity|]. split; [by rewrite length_fmap|].
  intros i row Hi. rewrite list_lookup_fmap, Hi. simpl.
  eexists. split; [reflexivity|]. by repeat split.
Qed.

(** *** The verdict against a growing index *)

Section IndexProperties.

Variable sha256_hexdigest : string -> string.
Variable token_sort_ratio : string -> string -> Q.
Variable fmt_score : Q -> string.
Variable now_isoformat : nat -> string.

Local Abbreviation compute_content_hash :=
  (Dedup.compute_content_hash sha256_hexdigest).
Local Abbreviation fuzzy_scan :=
  (Dedup.fuzzy_scan token_sort_ratio fmt_score).
Local Abbreviation fuzzy_reason := (Dedup.fuzzy_reason fmt_score).
Local Abbreviation is_duplicate :=
  (Dedup.is_duplicate sha256_hexdigest token_sort_ratio fmt_score).
Local Abbreviation prepare_event_row :=
  (Dedup.prepare_event_row sha256_hexdigest).
Local Abbreviation process_event :=
  (Pipeline.process_event sha256_hexdigest token_sort_ratio fmt_score
     now_isoformat).
Local Abbreviation process_events :=
  (Pipeline.process_events sha256_hexdigest token_sort_ratio fmt_score
     now_isoformat).
Local Abbreviation deduplicate_and_store :=
  (Pipeline.deduplicate_and_store sha256_hexdigest token_sort_ratio
     fmt_score now_isoformat).

(** [is_duplicate] layer by layer. *)
Lemma is_duplicate_exact_hit (event : dict) (sids hashes : gset string)
    (events : list dict) (T : Z) :
  exact_layer_hits event sids = true ->
  is_duplicate event sids hashes events T = Ok (true, "exact_source_id").
Proof. unfold Dedup.is_duplicate, exact_layer_hits. by intros ->. Qed.

Lemma is_duplicate_exact_miss (event : dict) (sids hashes : gset string)
    (events : list dict) (T : Z) :
  exact_layer_hits event sids = false ->
  is_duplicate event sids hashes events T
  = match compute_content_hash (py_get event "title" (PStr ""))
            (py_get event "start_date" (PStr ""))
            (py_get event "city" (PStr "")) with
    | Raise e => Raise e
    | Ok h =>
        if bool_decide (h ∈ hashes) then Ok (true, "content_hash")
        else
          match normalize_text (py_get event "title" (PStr "")),
                normalize_text (py_get event "city" (PStr "")) with
          | Ok nt, Ok nc =>
              fuzzy_scan nt
                (normalize_date (py_get event "start_date" (PStr "")))
                nc T events
          | Raise e, _ => Raise e
          | _, Raise e => Raise e
          end
    end.
Proof.
  unfold Dedup.is_duplicate, exact_layer_hits. intros ->.
  destruct (compute_content_hash _ _ _) as [h|e]; simpl; [|reflexivity].
  destruct (bool_decide (h ∈ hashes)); [reflexivity|].
  destruct (normalize_text (py_get event "title" (PStr ""))); simpl;
    [|reflexivity].
  by destruct (normalize_text (py_get event "city" (PStr ""))).
Qed.

Lemma exact_layer_hits_mono (event : dict) (sids sids' : gset string) :
  sids ⊆ sids' ->
  exact_layer_hits event sids = true -> exact_layer_hits event sids' = true.
Proof.
  unfold exact_layer_hits.
  intros Hsub [Hne Hin]%andb_true_iff. rewrite Hne. simpl.
  apply bool_decide_eq_true_1 in Hin. apply bool_decide_eq_true_2. auto.
Qed.

(** The only [Unique] verdict of the scan is [(False, "")]. *)
Lemma fuzzy_scan_unique_reason (nt nd nc : string) (T : Z)
    (events : list dict) (reason : string) :
  fuzzy_scan nt nd nc T events = Ok (false, reason) -> reason = "".
Proof.
  intros H.
  destruct (fuzzy_scan_sound _ _ _ _ _ _ _ _ _ H) as [[_ ?]|(r & _ & _ & _ & ? & _)];
    [done|discriminate].
Qed.

(** X6.  Scanning a list of tuples followed by another is scanning the
    first and, only if that ends with the verdict [Unique], scanning the
    second: a match or an exception in the first part is final. *)
Theorem fuzzy_scan_app (nt nd nc : string) (T : Z)
    (events more : list dict) :
  fuzzy_scan nt nd nc T (events ++ more)
  = match fuzzy_scan nt nd nc T events with
    | Ok (false, _) => fuzzy_scan nt nd nc T more
    | verdict => verdict
    end.
Proof.
  induction events as [|r rest IH]; [reflexivity|].
  rewrite <- app_comm_cons. simpl.
  destruct (normalize_text (py_get r "city" (PStr ""))) as [ec|];
    simpl; [|reflexivity].
  destruct (bool_decide (normalize_date _ = nd)); simpl; [|exact IH].
  destruct (bool_decide (ec = nc)); simpl; [|exact IH].
  destruct (str_is_empty nd); simpl; [exact IH|].
  destruct (normalize_text (py_get r "title" (PStr ""))) as [et|];
    simpl; [|reflexivity].
  destruct (Qle_bool _ _); [reflexivity|exact IH].
Qed.

Lemma fuzzy_scan_app_final (nt nd nc : string) (T : Z)
    (events more : list dict) :
  (forall reason, fuzzy_scan nt nd nc T events ≠ Ok (false, reason)) ->
  fuzzy_scan nt nd nc T (events ++ more) = fuzzy_scan nt nd nc T events.
Proof.
  induction events as [|r rest IH]; intros Hne.
  { by destruct (Hne ""). }
  rewrite <- app_comm_cons. revert Hne. simpl.
  destruct (normalize_text (py_get r "city" (PStr ""))) as [ec|];
    simpl; [|reflexivity].
  destruct (bool_decide (normalize_date _ = nd)); simpl; [|exact IH].
  destruct (bool_decide (ec = nc)); simpl; [|exact IH].
  destruct (str_is_empty nd); simpl; [exact IH|].
  destruct (normalize_text (py_get r "title" (PStr ""))) as [et|];
    simpl; [|reflexivity].
  destruct (Qle_bool _ _); [reflexivity|exact IH].
Qed.

(** Against more source ids, more hashes and a continued tuple list, a
    candidate that was not [Unique] is still not [Unique]. *)
Lemma not_unique_mono (event : dict) (sids sids' hashes hashes' : gset string)
    (events more : list dict) (T : Z) :
  sids ⊆ sids' -> hashes ⊆ hashes' ->
  (forall reason,
      is_duplicate event sids hashes events T ≠ Ok (false, reason)) ->
  forall reason,
    is_duplicate event sids' hashes' (events ++ more) T ≠ Ok (false, reason).
Proof.
  intros Hs Hh Hne reason.
  destruct (exact_layer_hits event sids') eqn:Hx'.
  { by rewrite is_duplicate_exact_hit. }
  assert (Hx : exact_layer_hits event sids = false).
  { destruct (exact_layer_hits event sids) eqn:Hx; [|done].
    by rewrite (exact_layer_hits_mono _ _ _ Hs Hx) in Hx'. }
  rewrite is_duplicate_exact_miss by done.
  pose proof (Hne) as Hne'.
  setoid_rewrite is_duplicate_exact_miss in Hne'; [|done].
  destruct (compute_content_hash _ _ _) as [h|e]; [|done].
  destruct (bool_decide (h ∈ hashes')) eqn:Hh'; [done|].
  rewrite bool_decide_eq_false_2 in Hne'.
  2:{ apply bool_decide_eq_false_1 in Hh'. auto. }
  destruct (normalize_text (py_get event "title" (PStr ""))); [|done].
  destruct (normalize_text (py_get event "city" (PStr ""))); [|done].
  by rewrite fuzzy_scan_app_final.
Qed.

(** X7.  A duplicate stays a duplicate: against a larger source-id set, a
    larger hash set and a tuple list continued at its end, a candidate
    that was a duplicate is a duplicate, by the same layer or an earlier
    one. *)
Theorem duplicate_verdict_monotone (event : dict)
    (sids sids' hashes hashes' : gset string) (events more : list dict)
    (T : Z) (reason : string) :
  sids ⊆ sids' -> hashes ⊆ hashes' ->
  is_duplicate event sids hashes events T = Ok (true, reason) ->
  is_duplicate event sids' hashes' (events ++ more) T = Ok (true, reason)
  ∨ is_duplicate event sids' hashes' (events ++ more) T
    = Ok (true, "content_hash")
  ∨ is_duplicate event sids' hashes' (events ++ more) T
    = Ok (true, "exact_source_id").
Proof.
  intros Hs Hh Hdup.
  destruct (exact_layer_hits event sids') eqn:Hx'.
  { right. right. by apply is_duplicate_exact_hit. }
  assert (Hx : exact_layer_hits event sids = false).
  { destruct (exact_layer_hits event sids) eqn:Hx; [|done].
    by rewrite (exact_layer_hits_mono _ _ _ Hs Hx) in Hx'. }
  rewrite is_duplicate_exact_miss in Hdup by done.
  rewrite !is_duplicate_exact_miss by done.
  destruct (compute_content_hash _ _ _) as [h|e]; [|done].
  destruct (bool_decide (h ∈ hashes')) eqn:Hh'; [right; by left|].
  rewrite bool_decide_eq_false_2 in Hdup.
  2:{ apply bool_decide_eq_false_1 in Hh'. auto. }
  destruct (normalize_text (py_get event "title" (PStr ""))); [|done].
  destruct (normalize_text (py_get event "city" (PStr ""))); [|done].
  left. rewrite fuzzy_scan_app_final; [done|].
  intros r. by rewrite Hdup.
Qed.

(** *** The loop and the index it maintains *)

Lemma is_duplicate_unique_inv (event : dict) (sids hashes : gset string)
    (events : list dict) (T : Z) (reason : string) :
  is_duplicate event sids hashes events T = Ok (false, reason) ->
  exact_layer_hits event sids = false
  ∧ reason = ""
  ∧ exists h,
      compute_content_hash (py_get event "title" (PStr ""))
        (py_get event "start_date" (PStr ""))
        (py_get event "city" (PStr "")) = Ok h
      ∧ h ∉ hashes.
Proof.
  intros H.
  destruct (exact_layer_hits event sids) eqn:Hx.
  { by rewrite is_duplicate_exact_hit in H. }
  split; [done|]. rewrite is_duplicate_exact_miss in H by done.
  destruct (compute_content_hash _ _ _) as [h|e]; [|done].
  destruct (bool_decide (h ∈ hashes)) eqn:Hh; [done|].
  apply bool_decide_eq_false_1 in Hh.
  destruct (normalize_text (py_get event "title" (PStr ""))); [|done].
  destruct (normalize_text (py_get event "city" (PStr ""))); [|done].
  split; [by eapply fuzzy_scan_unique_reason|eauto].
Qed.

(** What one iteration does, by the verdict on the candidate. *)
Lemma process_event_cases (st : loop_state) (event : dict) :
  ((forall reason,
       is_duplicate event (st_source_ids st) (st_content_hashes st)
         (st_events_list st) 85 ≠ Ok (false, reason))
   ∧ exists f,
       f ∈ [incr_dup_exact; incr_dup_hash; incr_dup_fuzzy; incr_errors]
       ∧ process_event st event = with_stats f st)
  ∨ (exists row h,
       is_duplicate event (st_source_ids st) (st_content_hashes st)
         (st_events_list st) 85 = Ok (false, "")
       ∧ prepare_event_row (now_isoformat (length (st_new_rows st))) event
         = Ok row
       ∧ compute_content_hash (py_get event "title" (PStr ""))
           (py_get event "start_date" (PStr ""))
           (py_get event "city" (PStr "")) = Ok h
       ∧ (h ∉ st_content_hashes st)
       ∧ process_event st event
         = {| st_source_ids :=
                st_source_ids st
                ∪ {[ py_str (py_get event "source_id" (PStr "")) ]};
              st_content_hashes := st_content_hashes st ∪ {[ h ]};
              st_events_list :=
                st_events_list st ++
                [ list_to_map
                    [ ("title", py_get event "title" (PStr ""));
                      ("start_date", py_get event "start_date" (PStr ""));
                      ("city", py_get event "city" (PStr "")) ] ];
              st_new_rows := st_new_rows st ++ [row];
              st_stats := incr_new (st_stats st) |}).
Proof.
  destruct (is_duplicate event (st_source_ids st) (st_content_hashes st)
              (st_events_list st) 85) as [[[] reason]|e] eqn:Hd.
  - left. split; [done|].
    rewrite (process_event_dup _ _ _ _ _ _ _ Hd).
    destruct (str_contains "source_id" reason);
      [|destruct (str_contains "hash" reason)];
      eexists; (split; [|reflexivity]);
      rewrite !elem_of_cons; tauto.
  - right.
    destruct (is_duplicate_unique_inv _ _ _ _ _ _ Hd)
      as (_ & -> & h & Hh & Hnotin).
    unfold Pipeline.process_event, Pipeline.try_body. rewrite Hd.
    destruct (prepare_event_row_ok sha256_hexdigest
                (now_isoformat (length (st_new_rows st))) _ _ Hh)
      as (row & Hrow & _).
    rewrite Hrow, Hh. simpl. exists row, h. done.
  - left. split; [done|]. exists incr_errors.
    split; [rewrite !elem_of_cons; tauto|].
    unfold Pipeline.process_event, Pipeline.try_body. by rewrite Hd.
Qed.

Lemma index_extends_refl (st : loop_state) : index_extends st st.
Proof. repeat split; [done|done|]. exists []. by rewrite app_nil_r. Qed.

Lemma index_extends_trans (st1 st2 st3 : loop_state) :
  index_extends st1 st2 -> index_extends st2 st3 -> index_extends st1 st3.
Proof.
  intros (Hs1 & Hh1 & a1 & Ha1) (Hs2 & Hh2 & a2 & Ha2).
  split; [by etrans|]. split; [by etrans|].
  exists (a1 ++ a2)%list. by rewrite Ha2, Ha1, app_assoc.
Qed.

Lemma process_event_extends (st : loop_state) (event : dict) :
  index_extends st (process_event st event).
Proof.
  destruct (process_event_cases st event)
    as [(_ & f & _ & ->)|(row & h & _ & _ & _ & _ & ->)].
  - split; [|split]; simpl; [done|done|].
    exists []. by rewrite app_nil_r.
  - split; [|split]; simpl.
    + apply union_subseteq_l.
    + apply union_subseteq_l.
    + eauto.
Qed.

Lemma process_events_cons (st : loop_state) (event : dict)
    (rest : list dict) :
  process_events st (event :: rest)
  = process_events (process_event st event) rest.
Proof. reflexivity. Qed.

Lemma process_events_extends (st : loop_state) (batch : list dict) :
  index_extends st (process_events st batch).
Proof.
  revert st. induction batch as [|event rest IH]; intros st.
  - apply index_extends_refl.
  - rewrite process_events_cons.
    eapply index_extends_trans; [apply process_event_extends|apply IH].
Qed.

(** X8.  A run only adds to the working index, and what it adds goes with
    the accepted rows: the source ids and hashes known at the start are
    known at the end, the tuple list and the row list are continued at
    their ends by equally many entries, and [new] grows by that number. *)
Theorem index_only_grows (st : loop_state) (batch : list dict) :
  let st' := process_events st batch in
  st_source_ids st ⊆ st_source_ids st'
  ∧ st_content_hashes st ⊆ st_content_hashes st'
  ∧ exists rows added,
      st_new_rows st' = (st_new_rows st ++ rows)%list
      ∧ st_events_list st' = (st_events_list st ++ added)%list
      ∧ length added = length rows
      ∧ length rows <= length batch
      ∧ new (st_stats st')
        = (new (st_stats st) + Z.of_nat (length rows))%Z.
Proof.
  simpl. destruct (process_events_extends st batch) as (Hs & Hh & _).
  split; [exact Hs|]. split; [exact Hh|]. clear Hs Hh.
  revert st. induction batch as [|event rest IH]; intros st.
  - exists [], []. simpl. rewrite !app_nil_r. repeat split; lia.
  - rewrite process_events_cons.
    destruct (IH (process_event st event))
      as (rows & added & Hrows & Hadd & Hlen & Hle & Hnew).
    rewrite Hrows, Hadd, Hnew. clear IH Hrows Hadd Hnew.
    destruct (process_event_cases st event)
      as [(_ & f & Hf & ->)|(row & h & _ & _ & _ & _ & ->)].
    + exists rows, added. simpl. repeat split; [done|lia|].
      rewrite !elem_of_cons, elem_of_nil in Hf.
      destruct Hf as [->|[->|[->|[->|[]]]]]; reflexivity.
    + exists (row :: rows),
        ((list_to_map
            [ ("title", py_get event "title" (PStr ""));
              ("start_date", py_get event "start_date" (PStr ""));
              ("city", py_get event "city" (PStr "")) ] : dict) :: added).
      simpl. rewrite <- !app_assoc. simpl.
      repeat split; [lia|lia|lia].
Qed.

Lemma folded_tuple_ok (event : dict) :
  Dedup.tuple_ok
    (list_to_map
       [ ("title", py_get event "title" (PStr ""));
         ("start_date", py_get event "start_date" (PStr ""));
         ("city", py_get event "city" (PStr "")) ])
  = is_text (py_get event "city" (PStr ""))
    && is_text (py_get event "title" (PStr "")).
Proof. reflexivity. Qed.

Lemma process_event_keeps_comparable (st : loop_state) (event : dict) :
  Forall (fun r => Dedup.tuple_ok r = true) (st_events_list st) ->
  Forall (fun r => Dedup.tuple_ok r = true)
    (st_events_list (process_event st event)).
Proof.
  intros Hok.
  destruct (process_event_cases st event)
    as [(_ & f & _ & ->)|(row & h & _ & _ & Hh & _ & ->)]; [exact Hok|].
  cbn [st_events_list]. apply Forall_app. split; [exact Hok|].
  apply List.Forall_cons; [|apply List.Forall_nil].
  rewrite folded_tuple_ok.
  destruct (proj1 (compute_content_hash_ok_iff sha256_hexdigest _ _ _)
              (ex_intro _ h Hh)) as [-> ->].
  reflexivity.
Qed.

(** X9.  The loop keeps the stored tuples comparable: if every tuple of
    the index has a text city and a text title at the start of a run, so
    has every tuple at its end. *)
Theorem stored_tuples_stay_comparable (st : loop_state)
    (batch : list dict) :
  Forall (fun r => Dedup.tuple_ok r = true) (st_events_list st) ->
  Forall (fun r => Dedup.tuple_ok r = true)
    (st_events_list (process_events st batch)).
Proof.
  revert st. induction batch as [|event rest IH]; intros st Hok; [done|].
  rewrite process_events_cons. by apply IH, process_event_keeps_comparable.
Qed.

(** Over comparable tuples, [is_duplicate] raises exactly when layer 1
    does not fire and the candidate's title or city is not text. *)
Lemma is_duplicate_raises_iff (event : dict) (sids hashes : gset string)
    (events : list dict) (T : Z) :
  Forall (fun r => Dedup.tuple_ok r = true) events ->
  (exists e, is_duplicate event sids hashes events T = Raise e)
  <-> exact_layer_hits event sids = false
      ∧ is_text (py_get event "title" (PStr ""))
        && is_text (py_get event "city" (PStr "")) = false.
Proof.
  intros Hok. split.
  - intros [e He].
    destruct (exact_layer_hits event sids) eqn:Hx.
    { by rewrite is_duplicate_exact_hit in He. }
    split; [done|].
    destruct (is_text (py_get event "title" (PStr ""))) eqn:Ht; [|done].
    destruct (is_text (py_get event "city" (PStr ""))) eqn:Hc; [|done].
    destruct (is_duplicate_total sha256_hexdigest token_sort_ratio
                fmt_score event sids hashes events T Ht Hc Hok)
      as (dup & reason & Hd).
    rewrite Hd in He. discriminate.
  - intros [Hx Htext]. rewrite is_duplicate_exact_miss by done.
    destruct (compute_content_hash _ _ _) as [h|e] eqn:Hh; [|eauto].
    destruct (proj1 (compute_content_hash_ok_iff sha256_hexdigest _ _ _)
                (ex_intro _ h Hh)) as [Ht Hc].
    rewrite Ht, Hc in Htext. discriminate.
Qed.

Lemma incr_errors_only (s : run_stats)
    (f : run_stats -> run_stats) :
  f ∈ [incr_dup_exact; incr_dup_hash; incr_dup_fuzzy; incr_errors] ->
  errors (f s) = errors s ∨ f = incr_errors.
Proof.
  rewrite !elem_of_cons, elem_of_nil.
  intros [->|[->|[->|[->|[]]]]]; auto.
Qed.

(** X10.  From an index of comparable tuples, an iteration counts an error
    exactly for a candidate that layer 1 does not catch and whose title or
    city is not text; so a run over candidates whose title and city are
    text (or missing) counts no error at all. *)
Theorem errors_come_from_untyped_candidates (st : loop_state) :
  Forall (fun r => Dedup.tuple_ok r = true) (st_events_list st) ->
  (forall event,
      errors (st_stats (process_event st event))
      = (errors (st_stats st)
         + if negb (exact_layer_hits event (st_source_ids st))
              && negb (is_text (py_get event "title" (PStr ""))
                       && is_text (py_get event "city" (PStr "")))
           then 1 else 0)%Z)
  ∧ (forall batch,
        Forall (fun event : dict =>
                  is_text (py_get event "title" (PStr "")) = true
                  ∧ is_text (py_get event "city" (PStr "")) = true) batch ->
        errors (st_stats (process_events st batch)) = errors (st_stats st)).
Proof.
  intros Hok.
  assert (Hstep : forall st0 event,
    Forall (fun r => Dedup.tuple_ok r = true) (st_events_list st0) ->
    errors (st_stats (process_event st0 event))
    = (errors (st_stats st0)
       + if negb (exact_layer_hits event (st_source_ids st0))
            && negb (is_text (py_get event "title" (PStr ""))
                     && is_text (py_get event "city" (PStr "")))
         then 1 else 0)%Z).
  { clear st Hok. intros st event Hok.
    pose proof (is_duplicate_raises_iff event (st_source_ids st)
                  (st_content_hashes st) (st_events_list st) 85 Hok)
      as Hiff.
    destruct (is_duplicate event (st_source_ids st) (st_content_hashes st)
                (st_events_list st) 85) as [[[] reason]|e] eqn:Hd.
    - rewrite (process_event_dup _ _ _ _ _ _ _ Hd).
      destruct (negb _ && negb _) eqn:Hc.
      + apply andb_true_iff in Hc as [Hx Ht].
        apply negb_true_iff in Hx, Ht.
        destruct (proj2 Hiff (conj Hx Ht)) as [e He]. discriminate.
      + destruct (str_contains "source_id" reason);
          [|destruct (str_contains "hash" reason)]; simpl; lia.
    - destruct (process_event_unique sha256_hexdigest token_sort_ratio
                  fmt_score now_isoformat _ _ _ Hd) as (row & h & _ & ->).
      destruct (negb _ && negb _) eqn:Hc.
      + apply andb_true_iff in Hc as [Hx Ht].
        apply negb_true_iff in Hx, Ht.
        destruct (proj2 Hiff (conj Hx Ht)) as [e He]. discriminate.
      + simpl. lia.
    - destruct (proj1 Hiff (ex_intro _ e eq_refl)) as [-> ->]. simpl.
      unfold Pipeline.process_event, Pipeline.try_body. rewrite Hd.
      reflexivity. }
  split; [intros event; by apply Hstep|].
  intros batch. revert st Hok.
  induction batch as [|event rest IH]; intros st Hok Htyped; [done|].
  apply Forall_cons in Htyped as [[Ht Hc] Hrest].
  rewrite process_events_cons, IH;
    [|by apply process_event_keeps_comparable|done].
  rewrite Hstep by done. rewrite Ht, Hc. simpl.
  rewrite andb_false_r. lia.
Qed.

(** A candidate whose fingerprint is in the hash set is a duplicate, by
    its source id or by its content hash. *)
Lemma known_hash_is_duplicate (event : dict) (sids hashes : gset string)
    (events : list dict) (T : Z) (h : string) :
  compute_content_hash (py_get event "title" (PStr ""))
    (py_get event "start_date" (PStr "")) (py_get event "city" (PStr ""))
  = Ok h ->
  h ∈ hashes ->
  is_duplicate event sids hashes events T = Ok (true, "exact_source_id")
  ∨ is_duplicate event sids hashes events T = Ok (true, "content_hash").
Proof.
  intros Hh Hin. destruct (exact_layer_hits event sids) eqn:Hx.
  - left. by apply is_duplicate_exact_hit.
  - right. rewrite is_duplicate_exact_miss by done. rewrite Hh.
    by rewrite bool_decide_eq_true_2.
Qed.

(** Once processed, a candidate is not [Unique] any more. *)
Lemma processed_not_unique (st : loop_state) (event : dict)
    (reason : string) :
  is_duplicate event (st_source_ids (process_event st event))
    (st_content_hashes (process_event st event))
    (st_events_list (process_event st event)) 85
  ≠ Ok (false, reason).
Proof.
  destruct (process_event_cases st event)
    as [(Hne & f & _ & ->)|(row & h & _ & _ & Hh & _ & ->)].
  - apply Hne.
  - cbn [st_source_ids st_content_hashes st_events_list].
    destruct (known_hash_is_duplicate event
                (st_source_ids st
                 ∪ {[ py_str (py_get event "source_id" (PStr "")) ]})
                (st_content_hashes st ∪ {[ h ]})
                (st_events_list st ++
                 [ list_to_map
                     [ ("title", py_get event "title" (PStr ""));
                       ("start_date", py_get event "start_date" (PStr ""));
                       ("city", py_get event "city" (PStr "")) ] ])
                85 h Hh) as [-> | ->]; try done.
    apply elem_of_union. right. by apply elem_of_singleton.
Qed.

Lemma batch_not_unique_after (st : loop_state) (batch : list dict)
    (event : dict) :
  event ∈ batch ->
  forall reason,
    is_duplicate event (st_source_ids (process_events st batch))
      (st_content_hashes (process_events st batch))
      (st_events_list (process_events st batch)) 85
    ≠ Ok (false, reason).
Proof.
  revert st. induction batch as [|x rest IH]; intros st Hin.
  - by apply elem_of_nil in Hin.
  - rewrite process_events_cons.
    apply elem_of_cons in Hin as [->|Hin]; [|by apply IH].
    destruct (process_events_extends (process_event st x) rest)
      as (Hs & Hh & added & ->).
    apply (not_unique_mono x
             (st_source_ids (process_event st x)) _
             (st_content_hashes (process_event st x)) _
             (st_events_list (process_event st x)) added 85 Hs Hh).
    intros r. apply processed_not_unique.
Qed.

(** A pass over candidates none of which is [Unique] leaves index, rows
    and [new] as they are. *)
Lemma not_unique_pass (st : loop_state) (batch : list dict) :
  (forall event reason, event ∈ batch ->
      is_duplicate event (st_source_ids st) (st_content_hashes st)
        (st_events_list st) 85 ≠ Ok (false, reason)) ->
  st_source_ids (process_events st batch) = st_source_ids st
  ∧ st_content_hashes (process_events st batch) = st_content_hashes st
  ∧ st_events_list (process_events st batch) = st_events_list st
  ∧ st_new_rows (process_events st batch) = st_new_rows st
  ∧ new (st_stats (process_events st batch)) = new (st_stats st).
Proof.
  revert st. induction batch as [|x rest IH]; intros st Hne; [done|].
  rewrite process_events_cons.
  destruct (process_event_cases st x)
    as [(_ & f & Hf & ->)|(row & h & Hd & _)].
  - destruct (IH (with_stats f st)) as (-> & -> & -> & -> & ->).
    { intros event reason Hin. apply Hne. by apply list_elem_of_further. }
    repeat split.
    rewrite !elem_of_cons, elem_of_nil in Hf.
    destruct Hf as [->|[->|[->|[->|[]]]]]; reflexivity.
  - by destruct (Hne x "" (list_elem_of_here _ _)).
Qed.

(** X11.  Running the same batch a second time, against the index the
    first run left, adds nothing: no source id, no hash, no tuple, no row,
    and [new] does not move. *)
Theorem rerun_adds_nothing (st : loop_state) (batch : list dict) :
  let st1 := process_events st batch in
  let st2 := process_events st1 batch in
  st_source_ids st2 = st_source_ids st1
  ∧ st_content_hashes st2 = st_content_hashes st1
  ∧ st_events_list st2 = st_events_list st1
  ∧ st_new_rows st2 = st_new_rows st1
  ∧ new (st_stats st2) = new (st_stats st1).
Proof.
  simpl. apply not_unique_pass.
  intros event reason Hin. by apply batch_not_unique_after.
Qed.

(** The hash cells of a list of rows. *)
Lemma row_hash_of_prepared (now : string) (event : dict)
    (row : list pyval) (h : string) :
  compute_content_hash (py_get event "title" (PStr ""))
    (py_get event "start_date" (PStr "")) (py_get event "city" (PStr ""))
  = Ok h ->
  prepare_event_row now event = Ok row ->
  row_cell row "content_hash" = Some (PStr h).
Proof.
  intros Hh Hrow.
  rewrite (prepare_event_row_cells sha256_hexdigest now event h Hh) in Hrow.
  by injection Hrow as <-.
Qed.

Lemma accepted_hashes_invariant (hashes0 : gset string) (st : loop_state)
    (event : dict) :
  hashes0 ⊆ st_content_hashes st ->
  NoDup ((fun row => row_cell row "content_hash") <$> st_new_rows st) ->
  (forall row, row ∈ st_new_rows st ->
     exists h, row_cell row "content_hash" = Some (PStr h)
       ∧ h ∈ st_content_hashes st ∧ h ∉ hashes0) ->
  hashes0 ⊆ st_content_hashes (process_event st event)
  ∧ NoDup ((fun row => row_cell row "content_hash")
             <$> st_new_rows (process_event st event))
  ∧ (forall row, row ∈ st_new_rows (process_event st event) ->
       exists h, row_cell row "content_hash" = Some (PStr h)
         ∧ h ∈ st_content_hashes (process_event st event) ∧ h ∉ hashes0).
Proof.
  intros Hsub Hnd Hrows.
  destruct (process_event_cases st event)
    as [(_ & f & _ & ->)|(row & h & _ & Hrow & Hh & Hnotin & ->)];
    [done|].
  cbn [st_content_hashes st_new_rows].
  pose proof (row_hash_of_prepared _ _ _ _ Hh Hrow) as Hcell.
  split; [|split].
  - etrans; [exact Hsub|apply union_subseteq_l].
  - rewrite fmap_app. apply NoDup_app. split; [exact Hnd|]. split.
    + intros cell Hin Hin'. simpl in Hin'.
      apply list_elem_of_singleton in Hin'. subst cell.
      apply list_elem_of_fmap in Hin as (row' & Heq & Hin).
      destruct (Hrows row' Hin) as (h' & Hcell' & Hin' & _).
      rewrite Hcell, Hcell' in Heq. injection Heq as ->. done.
    + simpl. apply NoDup_singleton.
  - intros row' [Hin|Hin]%elem_of_app.
    + destruct (Hrows row' Hin) as (h' & Hcell' & Hin' & Hn').
      exists h'. split; [done|]. split; [|done].
      apply elem_of_union. by left.
    + apply list_elem_of_singleton in Hin. subst row'.
      exists h. split; [done|]. split.
      * apply elem_of_union. right. by apply elem_of_singleton.
      * intros Hin0. apply Hnotin. auto.
Qed.

(** X12.  No fingerprint is stored twice by a run: the hash cells of the
    rows a run hands to the sheet are pairwise different, none of them was
    in the hash set the run started from, and each is in the hash set at
    the end. *)
Theorem accepted_hashes_are_new_and_distinct (existing : existing_data)
    (all_events : list dict) :
  let out := deduplicate_and_store existing all_events in
  let rows := st_new_rows (out_state out) in
  NoDup ((fun row => row_cell row "content_hash") <$> rows)
  ∧ (forall row, row ∈ rows ->
       exists h, row_cell row "content_hash" = Some (PStr h)
         ∧ h ∈ st_content_hashes (out_state out)
         ∧ h ∉ content_hashes existing).
Proof.
  simpl.
  assert (Hgen : forall batch st,
    content_hashes existing ⊆ st_content_hashes st ->
    NoDup ((fun row => row_cell row "content_hash") <$> st_new_rows st) ->
    (forall row, row ∈ st_new_rows st ->
       exists h, row_cell row "content_hash" = Some (PStr h)
         ∧ h ∈ st_content_hashes st ∧ h ∉ content_hashes existing) ->
    NoDup ((fun row => row_cell row "content_hash")
             <$> st_new_rows (process_events st batch))
    ∧ (forall row, row ∈ st_new_rows (process_events st batch) ->
         exists h, row_cell row "content_hash" = Some (PStr h)
           ∧ h ∈ st_content_hashes (process_events st batch)
           ∧ h ∉ content_hashes existing)).
  { induction batch as [|event rest IH]; intros st Hsub Hnd Hrows;
      [done|].
    rewrite process_events_cons.
    destruct (accepted_hashes_invariant _ st event Hsub Hnd Hrows)
      as (Hsub' & Hnd' & Hrows').
    by apply IH. }
  apply Hgen; simpl.
  - done.
  - apply NoDup_nil_2.
  - intros row Hin. by apply elem_of_nil in Hin.
Qed.

(** *** How the loop files a verdict under a counter *)

Lemma str_forallb_app (p : ascii -> bool) (a b : string) :
  str_forallb p (a +:+ b) = str_forallb p a && str_forallb p b.
Proof.
  induction a as [|c a IH]; [reflexivity|].
  change (String c a +:+ b) with (String c (a +:+ b)). simpl.
  by rewrite IH, andb_assoc.
Qed.

Lemma str_forallb_prefix (p : ascii -> bool) (needle hay : string) :
  str_forallb p hay = true -> String.prefix needle hay = true ->
  str_forallb p needle = true.
Proof.
  revert hay. induction needle as [|c needle IH]; intros hay; [done|].
  destruct hay as [|d hay]; simpl; [discriminate|].
  intros [Hd Hhay]%andb_true_iff.
  destruct (Ascii.ascii_dec c d) as [->|]; [|discriminate].
  intros Hp. rewrite Hd. simpl. eauto.
Qed.

(** Every character of a substring is a character of the string. *)
Lemma str_forallb_contains (p : ascii -> bool) (needle hay : string) :
  str_forallb p hay = true -> str_contains needle hay = true ->
  str_forallb p needle = true.
Proof.
  induction hay as [|d hay IH]; simpl.
  - intros _. rewrite orb_false_r. by destruct needle.
  - intros [Hd Hhay]%andb_true_iff [Hp|Hc]%orb_true_iff.
    + apply (str_forallb_prefix p needle (String d hay)); [|done].
      simpl. by rewrite Hd.
    + by apply IH.
Qed.

(** X13.  The counters follow the layers: a duplicate by source id moves
    [dup_exact], a duplicate by content hash moves [dup_hash], and a fuzzy
    duplicate moves [dup_fuzzy] provided the text printed for its score
    has no letter s in it. *)
Theorem counters_follow_layers (st : loop_state) (event : dict) :
  (is_duplicate event (st_source_ids st) (st_content_hashes st)
     (st_events_list st) 85 = Ok (true, "exact_source_id") ->
   process_event st event = with_stats incr_dup_exact st)
  ∧ (is_duplicate event (st_source_ids st) (st_content_hashes st)
       (st_events_list st) 85 = Ok (true, "content_hash") ->
     process_event st event = with_stats incr_dup_hash st)
  ∧ (forall s : Q,
        is_duplicate event (st_source_ids st) (st_content_hashes st)
          (st_events_list st) 85 = Ok (true, fuzzy_reason s) ->
        str_forallb (fun c => negb (Ascii.eqb c "s")) (fmt_score s) = true ->
        process_event st event = with_stats incr_dup_fuzzy st).
Proof.
  split; [|split].
  - intros Hd. by rewrite (process_event_dup _ _ _ _ _ _ _ Hd).
  - intros Hd. by rewrite (process_event_dup _ _ _ _ _ _ _ Hd).
  - intros s Hd Hfmt. rewrite (process_event_dup _ _ _ _ _ _ _ Hd).
    assert (Hno : str_forallb (fun c => negb (Ascii.eqb c "s"))
                    (fuzzy_reason s) = true).
    { unfold Dedup.fuzzy_reason. rewrite !str_forallb_app, Hfmt.
      reflexivity. }
    destruct (str_contains "source_id" (fuzzy_reason s)) eqn:H1.
    { pose proof (str_forallb_contains _ _ _ Hno H1). discriminate. }
    destruct (str_contains "hash" (fuzzy_reason s)) eqn:H2.
    { pose proof (str_forallb_contains _ _ _ Hno H2). discriminate. }
    reflexivity.
Qed.

(** *** The loaded index and the loop *)

(** X14.  Scraping a stored listing again never stores it again: a
    candidate whose trimmed source id is the source id of some stored
    record is a duplicate by [exact_source_id] against the loaded index,
    whatever its other fields are; the run counts it under [dup_exact],
    appends nothing and leaves the total as it was. *)
Theorem stored_listing_is_exact_duplicate (records : list dict)
    (row event : dict) :
  row ∈ records ->
  py_truthy (py_get row "source_id" PNone) = true ->
  strip (py_str (py_get event "source_id" (PStr "")))
  = py_str (py_get row "source_id" PNone) ->
  let existing := Sheets.load_existing_events records in
  let out := deduplicate_and_store existing [event] in
  (forall T,
      is_duplicate event (source_ids existing) (content_hashes existing)
        (events_list existing) T = Ok (true, "exact_source_id"))
  ∧ out_stats out = incr_dup_exact zero_stats
  ∧ out_appended out = []
  ∧ out_total out = Z.of_nat (length records).
Proof.
  intros Hin Htruthy Hsid existing out.
  assert (Hhit : exact_layer_hits event (source_ids existing) = true).
  { unfold exact_layer_hits. rewrite Hsid.
    apply andb_true_iff. split.
    - apply negb_true_iff, str_is_empty_false. by apply py_str_truthy.
    - apply bool_decide_eq_true_2.
      apply load_source_ids_iff. eauto. }
  assert (Hdup : forall T,
    is_duplicate event (source_ids existing) (content_hashes existing)
      (events_list existing) T = Ok (true, "exact_source_id")).
  { intros T. by apply is_duplicate_exact_hit. }
  split; [exact Hdup|].
  assert (Hst : out_state out
                = with_stats incr_dup_exact
                    (Pipeline.initial_state existing)).
  { unfold out, Pipeline.deduplicate_and_store, Pipeline.process_events.
    cbn [out_state fold_left].
    by rewrite (process_event_dup sha256_hexdigest token_sort_ratio
                  fmt_score now_isoformat (Pipeline.initial_state existing)
                  event _ (Hdup 85%Z)). }
  unfold out, Pipeline.deduplicate_and_store in *.
  cbn [out_state out_stats out_appended out_total] in *.
  rewrite Hst. cbn. split; [reflexivity|]. split; [reflexivity|]. lia.
Qed.

(** X15.  An event whose fingerprint is stored is never stored again: a
    candidate whose fingerprint is the content hash of some stored record
    is a duplicate against the loaded index, by its source id or by its
    content hash, and the run appends nothing. *)
Theorem stored_fingerprint_is_duplicate (records : list dict)
    (row event : dict) :
  row ∈ records ->
  py_truthy (py_get row "content_hash" PNone) = true ->
  compute_content_hash (py_get event "title" (PStr ""))
    (py_get event "start_date" (PStr "")) (py_get event "city" (PStr ""))
  = Ok (py_str (py_get row "content_hash" PNone)) ->
  let existing := Sheets.load_existing_events records in
  let out := deduplicate_and_store existing [event] in
  (forall T,
      is_duplicate event (source_ids existing) (content_hashes existing)
        (events_list existing) T = Ok (true, "exact_source_id")
      ∨ is_duplicate event (source_ids existing) (content_hashes existing)
          (events_list existing) T = Ok (true, "content_hash"))
  ∧ new (out_stats out) = 0%Z
  ∧ out_appended out = [].
Proof.
  intros Hin Htruthy Hh existing out.
  assert (Hknown : py_str (py_get row "content_hash" PNone)
                   ∈ content_hashes existing).
  { apply load_content_hashes_iff. eauto. }
  assert (Hdup : forall T,
    is_duplicate event (source_ids existing) (content_hashes existing)
      (events_list existing) T = Ok (true, "exact_source_id")
    ∨ is_duplicate event (source_ids existing) (content_hashes existing)
        (events_list existing) T = Ok (true, "content_hash")).
  { intros T. by eapply known_hash_is_duplicate. }
  split; [exact Hdup|].
  unfold out, Pipeline.deduplicate_and_store, Pipeline.process_events.
  cbn [out_state out_stats out_appended fold_left].
  destruct (Hdup 85%Z) as [Hd|Hd];
    rewrite (process_event_dup sha256_hexdigest token_sort_ratio fmt_score
               now_isoformat (Pipeline.initial_state existing) event _ Hd);
    by cbn.
Qed.

(** *** Candidates in the common event shape *)

Lemma normalize_event_get (P : string) (raw : dict) :
  py_get (Scrapers.normalize_event P raw) "title" (PStr "")
  = py_get raw "title" (PStr "Untitled Event")
  ∧ py_get (Scrapers.normalize_event P raw) "start_date" (PStr "")
    = py_get raw "start_date" (PStr "")
  ∧ py_get (Scrapers.normalize_event P raw) "city" (PStr "")
    = py_get raw "city" (PStr "")
  ∧ py_get (Scrapers.normalize_event P raw) "source_id" (PStr "")
    = PStr (py_str (py_get raw "source_id" (PStr ""))).
Proof. repeat split; reflexivity. Qed.

(** X17.  The verdict on a normalised event does not look at the
    platform: the same raw event normalised by two scrapers gets the same
    answer from [is_duplicate], and an event without a title is
    fingerprinted under the title "Untitled Event". *)
Theorem verdict_ignores_platform (P P' : string) (raw : dict)
    (sids hashes : gset string) (events : list dict) (T : Z) :
  is_duplicate (Scrapers.normalize_event P raw) sids hashes events T
  = is_duplicate (Scrapers.normalize_event P' raw) sids hashes events T
  ∧ (raw !! "title" = None ->
     compute_content_hash
       (py_get (Scrapers.normalize_event P raw) "title" (PStr ""))
       (py_get (Scrapers.normalize_event P raw) "start_date" (PStr ""))
       (py_get (Scrapers.normalize_event P raw) "city" (PStr ""))
     = compute_content_hash (PStr "Untitled Event")
         (py_get raw "start_date" (PStr "")) (py_get raw "city" (PStr ""))).
Proof.
  split.
  - unfold Dedup.is_duplicate.
    destruct (normalize_event_get P raw) as (-> & -> & -> & ->).
    destruct (normalize_event_get P' raw) as (-> & -> & -> & ->).
    reflexivity.
  - intros Hnone.
    destruct (normalize_event_get P raw) as (-> & -> & -> & _).
    unfold py_get at 1. by rewrite Hnone.
Qed.

(** X18.  Untitled events collide: of two raw events without a title, on
    the same start date and in the same (text) city, normalised by any two
    scrapers and run from an empty index, the first is accepted and the
    second is turned away as a duplicate. *)
Theorem untitled_events_collide (P1 P2 : string) (raw1 raw2 : dict) :
  raw1 !! "title" = None -> raw2 !! "title" = None ->
  raw1 !! "start_date" = raw2 !! "start_date" ->
  raw1 !! "city" = raw2 !! "city" ->
  is_text (py_get raw1 "city" (PStr "")) = true ->
  let out :=
    deduplicate_and_store empty_existing
      [ Scrapers.normalize_event P1 raw1;
        Scrapers.normalize_event P2 raw2 ] in
  new (out_stats out) = 1%Z
  ∧ (dup_exact (out_stats out) + dup_hash (out_stats out))%Z = 1%Z
  ∧ errors (out_stats out) = 0%Z
  ∧ length (st_new_rows (out_state out)) = 1.
Proof.
  intros Ht1 Ht2 Hdate Hcity Htext out.
  set (e1 := Scrapers.normalize_event P1 raw1).
  set (e2 := Scrapers.normalize_event P2 raw2).
  set (st0 := Pipeline.initial_state empty_existing).
  destruct (py_get raw1 "city" (PStr "")) as [c| | |] eqn:Hc;
    try discriminate.
  assert (Hh1 : compute_content_hash (py_get e1 "title" (PStr ""))
                  (py_get e1 "start_date" (PStr ""))
                  (py_get e1 "city" (PStr ""))
                = Ok (sha256_hexdigest
                        ("untitled event" +:+ "|"
                         +:+ normalize_date
                               (py_get raw1 "start_date" (PStr ""))
                         +:+ "|" +:+ normalize_str c))).
  { unfold e1.
    destruct (normalize_event_get P1 raw1) as (-> & -> & -> & _).
    unfold py_get at 1. rewrite Ht1, Hc. reflexivity. }
  assert (Hh2 : compute_content_hash (py_get e2 "title" (PStr ""))
                  (py_get e2 "start_date" (PStr ""))
                  (py_get e2 "city" (PStr ""))
                = Ok (sha256_hexdigest
                        ("untitled event" +:+ "|"
                         +:+ normalize_date
                               (py_get raw1 "start_date" (PStr ""))
                         +:+ "|" +:+ normalize_str c))).
  { unfold e2.
    destruct (normalize_event_get P2 raw2) as (-> & -> & -> & _).
    unfold py_get at 1. rewrite Ht2.
    rewrite <- (py_get_same raw1 raw2 "start_date" _ Hdate),
      <- (py_get_same raw1 raw2 "city" _ Hcity), Hc.
    reflexivity. }
  destruct (process_event_cases st0 e1)
    as [(Hne & _)|(row & h & _ & _ & Hh & _ & Hst1)].
  { exfalso. apply (Hne "").
    rewrite is_duplicate_exact_miss.
    - rewrite Hh1. cbn [st_content_hashes st0 Pipeline.initial_state
                        content_hashes empty_existing].
      rewrite bool_decide_eq_false_2 by apply not_elem_of_empty.
      apply compute_content_hash_inv in Hh1 as (nt & nc & -> & -> & _).
      reflexivity.
    - unfold exact_layer_hits.
      rewrite (bool_decide_eq_false_2 (_ ∈ _))
        by apply not_elem_of_empty.
      apply andb_false_r. }
  rewrite Hh1 in Hh. injection Hh as <-.
  assert (Hd2 :
    is_duplicate e2 (st_source_ids (process_event st0 e1))
      (st_content_hashes (process_event st0 e1))
      (st_events_list (process_event st0 e1)) 85
    = Ok (true, "exact_source_id")
    ∨ is_duplicate e2 (st_source_ids (process_event st0 e1))
        (st_content_hashes (process_event st0 e1))
        (st_events_list (process_event st0 e1)) 85
      = Ok (true, "content_hash")).
  { eapply known_hash_is_duplicate; [exact Hh2|].
    rewrite Hst1. cbn [st_content_hashes].
    apply elem_of_union. right. by apply elem_of_singleton. }
  assert (Hout : out_state out
                 = process_event (process_event st0 e1) e2) by reflexivity.
  unfold out, Pipeline.deduplicate_and_store in *.
  cbn [out_stats out_state] in *. rewrite Hout.
  destruct Hd2 as [Hd|Hd];
    rewrite (process_event_dup sha256_hexdigest token_sort_ratio fmt_score
               now_isoformat (process_event st0 e1) e2 _ Hd);
    rewrite Hst1; cbn; done.
Qed.

(** *** The verdict [Unique] and the threshold *)

(** X20.  For a candidate that reaches the fuzzy layer, over stored tuples
    that can be compared, the verdict is [Unique] exactly when every
    stored tuple that passes the date and city gate scores strictly below
    the threshold. *)
Theorem unique_iff_all_gated_below (event : dict)
    (sids hashes : gset string) (events : list dict) (T : Z)
    (nt nd nc : string) :
  Dedup.reaches_fuzzy_layer sha256_hexdigest event sids hashes nt nd nc ->
  Forall (fun r => Dedup.tuple_ok r = true) events ->
  is_duplicate event sids hashes events T = Ok (false, "")
  <-> (forall r, r ∈ events -> Dedup.gate nd nc r = true ->
         (Dedup.title_score token_sort_ratio nt r < inject_Z T)%Q).
Proof.
  intros Hreach Hok.
  rewrite (is_duplicate_reaches sha256_hexdigest token_sort_ratio fmt_score
             event sids hashes events T nt nd nc Hreach).
  split.
  - intros Hscan r Hin Hg. apply Qnot_le_lt. intros Hle.
    destruct (fuzzy_scan_some token_sort_ratio fmt_score nt nd nc T events
                r Hok Hin Hg Hle) as (s & _ & Hs).
    rewrite Hs in Hscan. discriminate.
  - intros Hlow. by apply fuzzy_scan_none.
Qed.

Lemma fuzzy_scan_threshold_mono (nt nd nc : string) (T T' : Z)
    (events : list dict) :
  (T <= T')%Z ->
  fuzzy_scan nt nd nc T events = Ok (false, "") ->
  fuzzy_scan nt nd nc T' events = Ok (false, "").
Proof.
  intros HT. induction events as [|r rest IH]; [done|]. simpl.
  destruct (normalize_text (py_get r "city" (PStr ""))) as [ec|];
    simpl; [|done].
  destruct (bool_decide (normalize_date _ = nd)); simpl; [|exact IH].
  destruct (bool_decide (ec = nc)); simpl; [|exact IH].
  destruct (str_is_empty nd); simpl; [exact IH|].
  destruct (normalize_text (py_get r "title" (PStr ""))) as [et|];
    simpl; [|done].
  destruct (Qle_bool (inject_Z T) (token_sort_ratio nt et)) eqn:Hq;
    [discriminate|].
  destruct (Qle_bool (inject_Z T') (token_sort_ratio nt et)) eqn:Hq';
    [|exact IH].
  apply Qle_bool_iff in Hq'.
  assert (Hle : (inject_Z T <= token_sort_ratio nt et)%Q).
  { eapply Qle_trans; [|exact Hq']. by rewrite <- Zle_Qle. }
  apply Qle_bool_iff in Hle. rewrite Hle in Hq. discriminate.
Qed.

(** X21.  The threshold only matters to the fuzzy layer, and raising it
    never creates a duplicate: a duplicate by source id or by content hash
    is one at every threshold, and a candidate that is [Unique] at a
    threshold is [Unique] at every higher one. *)
Theorem threshold_only_tunes_fuzzy_layer (event : dict)
    (sids hashes : gset string) (events : list dict) (T T' : Z) :
  (is_duplicate event sids hashes events T = Ok (true, "exact_source_id")
   -> is_duplicate event sids hashes events T'
      = Ok (true, "exact_source_id"))
  ∧ (is_duplicate event sids hashes events T = Ok (true, "content_hash")
     -> is_duplicate event sids hashes events T'
        = Ok (true, "content_hash"))
  ∧ ((T <= T')%Z ->
     is_duplicate event sids hashes events T = Ok (false, "") ->
     is_duplicate event sids hashes events T' = Ok (false, "")).
Proof.
  destruct (exact_layer_hits event sids) eqn:Hx.
  { rewrite !is_duplicate_exact_hit by done. by repeat split. }
  rewrite !is_duplicate_exact_miss by done.
  destruct (compute_content_hash _ _ _) as [h|e]; [|by repeat split].
  destruct (bool_decide (h ∈ hashes)); [by repeat split|].
  destruct (normalize_text (py_get event "title" (PStr ""))) as [nt|];
    [|by repeat split].
  destruct (normalize_text (py_get event "city" (PStr ""))) as [nc|];
    [|by repeat split].
  assert (Hfuzzy : forall reason,
    String.prefix "fuzzy_match_" reason = false ->
    fuzzy_scan nt (normalize_date (py_get event "start_date" (PStr "")))
      nc T events ≠ Ok (true, reason)).
  { intros reason Hp Hscan.
    destruct (fuzzy_scan_sound token_sort_ratio fmt_score _ _ _ _ _ _ _
                Hscan) as [[? _]|(r & _ & _ & _ & _ & Hr)];
      [discriminate|].
    rewrite Hr, fuzzy_reason_prefix in Hp. discriminate. }
  split; [|split].
  - intros Hscan. by destruct (Hfuzzy "exact_source_id" eq_refl).
  - intros Hscan. by destruct (Hfuzzy "content_hash" eq_refl).
  - by apply fuzzy_scan_threshold_mono.
Qed.

End IndexProperties.

(** *** The common event shape *)

(** X16.  A normalised event has exactly the fifteen keys of the common
    shape, whatever the raw event holds; its platform is the scraper's,
    its source id is text; and normalising it again, by any scraper,
    gives what normalising the raw event by that scraper gives. *)
Theorem normalize_event_shape (P : string) (raw : dict) :
  (forall k, is_Some (Scrapers.normalize_event P raw !! k)
             <-> k ∈ Scrapers.EVENT_KEYS)
  ∧ Scrapers.normalize_event P raw !! "platform" = Some (PStr P)
  ∧ Scrapers.normalize_event P raw !! "source_id"
    = Some (PStr (py_str (py_get raw "source_id" (PStr ""))))
  ∧ (forall P',
        Scrapers.normalize_event P' (Scrapers.normalize_event P raw)
        = Scrapers.normalize_event P' raw).
Proof.
  split; [|split; [reflexivity|split; [reflexivity|]]].
  - intros k. rewrite <- elem_of_dom.
    unfold Scrapers.normalize_event. rewrite dom_list_to_map_L.
    rewrite elem_of_list_to_set. reflexivity.
  - intros P'. reflexivity.
Qed.

(** *** The normaliser on text without punctuation *)

Lemma lower_keeps_class (c : ascii) :
  word_or_space (Char.lower c) = word_or_space c.
Proof. each_char c. Qed.

Lemma str_lower_keeps_class (s : string) :
  str_forallb word_or_space (str_lower s) = str_forallb word_or_space s.
Proof.
  induction s as [|c s IH]; simpl; [done|].
  by rewrite lower_keeps_class, IH.
Qed.

Lemma sub_non_word_plain (s : string) :
  str_forallb word_or_space s = true -> sub_non_word s = s.
Proof.
  induction s as [|c s IH]; simpl; [done|].
  intros [Hc Hs]%andb_true_iff. unfold word_or_space in Hc.
  rewrite Hc, (IH Hs). reflexivity.
Qed.

Lemma sub_ws_runs_again (s : string) (b b' : bool) :
  (b' = true -> b = true) ->
  sub_ws_runs b' (sub_ws_runs b s) = sub_ws_runs b s.
Proof.
  revert b b'. induction s as [|c s IH]; intros b b' Hb; [done|].
  simpl. destruct (Char.isspace c) eqn:Hc.
  - destruct b.
    + by apply IH.
    + destruct b'; [by discriminate (Hb eq_refl)|].
      simpl. by rewrite IH.
  - simpl. rewrite Hc. by rewrite IH.
Qed.

Lemma lstrip_no_leading_space (s : string) :
  no_leading_space (lstrip s) = true.
Proof.
  induction s as [|c s IH]; simpl; [done|].
  destruct (Char.isspace c) eqn:Hc; [exact IH|]. simpl. by rewrite Hc.
Qed.

Lemma lstrip_fixed (s : string) :
  no_leading_space s = true -> lstrip s = s.
Proof.
  destruct s as [|c s]; simpl; [done|].
  intros Hc%negb_true_iff. by rewrite Hc.
Qed.

Lemma rstrip_no_leading_space (s : string) :
  no_leading_space s = true -> no_leading_space (rstrip s) = true.
Proof.
  destruct s as [|c s]; simpl; [done|].
  intros Hc. apply negb_true_iff in Hc as Hc'. rewrite Hc'. simpl.
  exact Hc.
Qed.

Lemma rstrip_rstrip (s : string) : rstrip (rstrip s) = rstrip s.
Proof.
  induction s as [|c s IH]; simpl; [done|].
  destruct (Char.isspace c && str_is_empty (rstrip s)) eqn:Hcond;
    [done|].
  simpl. by rewrite IH, Hcond.
Qed.

Lemma rstrip_fixed_inv (c : ascii) (s : string) :
  rstrip (String c s) = String c s ->
  rstrip s = s ∧ (Char.isspace c = true -> s ≠ "").
Proof.
  simpl. destruct (Char.isspace c && str_is_empty (rstrip s)) eqn:Hcond;
    [discriminate|].
  intros [= Hs]. split; [exact Hs|].
  intros Hc ->. rewrite Hc in Hcond. discriminate.
Qed.

Lemma sub_ws_runs_nonempty (s : string) (b : bool) :
  rstrip s = s -> s ≠ "" -> sub_ws_runs b s ≠ "".
Proof.
  revert b. induction s as [|c s IH]; intros b Hfix Hne; [done|].
  apply rstrip_fixed_inv in Hfix as [Hs Hsp]. simpl.
  destruct (Char.isspace c) eqn:Hc; [|done].
  destruct b; [|done]. apply IH; auto.
Qed.

Lemma rstrip_sub_ws_runs (s : string) (b : bool) :
  rstrip s = s -> rstrip (sub_ws_runs b s) = sub_ws_runs b s.
Proof.
  revert b. induction s as [|c s IH]; intros b Hfix; [done|].
  apply rstrip_fixed_inv in Hfix as [Hs Hsp]. simpl.
  destruct (Char.isspace c) eqn:Hc.
  - destruct b; [by apply IH|].
    simpl. rewrite (IH true Hs).
    destruct (str_is_empty (sub_ws_runs true s)) eqn:He; [|done].
    apply str_is_empty_true in He.
    by destruct (sub_ws_runs_nonempty s true Hs (Hsp eq_refl)).
  - simpl. rewrite Hc. simpl. by rewrite (IH false Hs).
Qed.

Lemma sub_ws_runs_no_leading_space (s : string) :
  no_leading_space s = true ->
  no_leading_space (sub_ws_runs false s) = true.
Proof.
  destruct s as [|c s]; simpl; [done|].
  intros Hc. apply negb_true_iff in Hc as Hc'. rewrite Hc'. exact Hc.
Qed.

(** X19.  On text without punctuation (word characters and whitespace
    only) the normaliser returns a canonical form: the result has no
    leading or trailing whitespace, every run of whitespace in it is one
    space, and normalising the result again changes nothing. *)
Theorem normalize_str_plain_text (s : string) :
  str_forallb word_or_space s = true ->
  normalize_str s = sub_ws_runs false (strip (str_lower s))
  ∧ strip (normalize_str s) = normalize_str s
  ∧ sub_ws_runs false (normalize_str s) = normalize_str s
  ∧ normalize_str (normalize_str s) = normalize_str s.
Proof.
  intros Hplain.
  assert (Hclass : str_forallb word_or_space
                     (sub_ws_runs false (strip (str_lower s))) = true).
  { apply str_forallb_sub_ws_runs; [reflexivity|].
    apply str_forallb_rstrip, str_forallb_lstrip.
    by rewrite str_lower_keeps_class. }
  assert (Hn : normalize_str s = sub_ws_runs false (strip (str_lower s))).
  { unfold normalize_str. by apply sub_non_word_plain. }
  assert (Hstrip : strip (normalize_str s) = normalize_str s).
  { rewrite Hn. unfold strip at 1.
    rewrite lstrip_fixed.
    - apply rstrip_sub_ws_runs. unfold strip. apply rstrip_rstrip.
    - apply sub_ws_runs_no_leading_space. unfold strip.
      apply rstrip_no_leading_space, lstrip_no_leading_space. }
  assert (Hruns : sub_ws_runs false (normalize_str s) = normalize_str s).
  { rewrite Hn. by apply sub_ws_runs_again. }
  split; [exact Hn|]. split; [exact Hstrip|]. split; [exact Hruns|].
  unfold normalize_str at 1.
  rewrite normalize_str_lowered, Hstrip, Hruns.
  apply sub_non_word_plain. by rewrite Hn.
Qed.

(** ** Rows, loader and index on concrete inputs *)

Lemma prepare_event_row_defined_witness :
  exists row,
    Dedup.prepare_event_row Reference.digest "2025-06-01T12:00:00"
      (mk_event "AI Summit 2025" "2025-06-01" "Pune" "eb_1")
    = Ok row.
Proof.
  apply (proj2 (proj1 (prepare_event_row_defined Reference.digest
                         "2025-06-01T12:00:00"
                         (mk_event "AI Summit 2025" "2025-06-01" "Pune"
                            "eb_1")))).
  split; by_evaluation.
Defined.

Lemma row_hash_matches_row_cells_witness :
  exists h t d c,
    row_cell
      [ PStr "ai summit 2025|2025-06-01|pune"; PStr "AI Summit 2025";
        PStr "2025-06-01"; PStr ""; PStr "Pune"; PStr "India"; PStr "";
        PStr "eb_1"; PStr ""; PStr ""; PStr "Free"; PStr "TRUE"; PStr "";
        PStr ""; PStr ""; PStr ""; PStr "2025-06-01T12:00:00";
        PStr "TRUE" ] "content_hash" = Some (PStr h)
    ∧ row_cell
        [ PStr "ai summit 2025|2025-06-01|pune"; PStr "AI Summit 2025";
          PStr "2025-06-01"; PStr ""; PStr "Pune"; PStr "India"; PStr "";
          PStr "eb_1"; PStr ""; PStr ""; PStr "Free"; PStr "TRUE"; PStr "";
          PStr ""; PStr ""; PStr ""; PStr "2025-06-01T12:00:00";
          PStr "TRUE" ] "title" = Some t
    ∧ row_cell
        [ PStr "ai summit 2025|2025-06-01|pune"; PStr "AI Summit 2025";
          PStr "2025-06-01"; PStr ""; PStr "Pune"; PStr "India"; PStr "";
          PStr "eb_1"; PStr ""; PStr ""; PStr "Free"; PStr "TRUE"; PStr "";
          PStr ""; PStr ""; PStr ""; PStr "2025-06-01T12:00:00";
          PStr "TRUE" ] "start_date" = Some d
    ∧ row_cell
        [ PStr "ai summit 2025|2025-06-01|pune"; PStr "AI Summit 2025";
          PStr "2025-06-01"; PStr ""; PStr "Pune"; PStr "India"; PStr "";
          PStr "eb_1"; PStr ""; PStr ""; PStr "Free"; PStr "TRUE"; PStr "";
          PStr ""; PStr ""; PStr ""; PStr "2025-06-01T12:00:00";
          PStr "TRUE" ] "city" = Some c
    ∧ Dedup.compute_content_hash Reference.digest t d c = Ok h
    ∧ Dedup.compute_content_hash Reference.digest
        (py_get (mk_event "AI Summit 2025" "2025-06-01" "Pune" "eb_1")
           "title" (PStr ""))
        (py_get (mk_event "AI Summit 2025" "2025-06-01" "Pune" "eb_1")
           "start_date" (PStr ""))
        (py_get (mk_event "AI Summit 2025" "2025-06-01" "Pune" "eb_1")
           "city" (PStr "")) = Ok h.
Proof.
  apply (row_hash_matches_row_cells Reference.digest
           "2025-06-01T12:00:00"
           (mk_event "AI Summit 2025" "2025-06-01" "Pune" "eb_1")).
  by_evaluation.
Defined.

Lemma row_cells_bounded_witness :
  row_cell
    [ PStr "ai summit 2025|2025-06-01|pune"; PStr "AI Summit 2025";
      PStr "2025-06-01"; PStr ""; PStr "Pune"; PStr "India"; PStr "";
      PStr "eb_1"; PStr ""; PStr ""; PStr "Free"; PStr "TRUE"; PStr "";
      PStr ""; PStr ""; PStr ""; PStr "2025-06-01T12:00:00";
      PStr "TRUE" ] "source_id"
  = Some (PStr (py_str
                  (py_get
                     (mk_event "AI Summit 2025" "2025-06-01" "Pune" "eb_1")
                     "source_id" (PStr "")))).
Proof.
  apply (row_cells_bounded Reference.digest "2025-06-01T12:00:00"
           (mk_event "AI Summit 2025" "2025-06-01" "Pune" "eb_1")).
  by_evaluation.
Defined.

Lemma load_existing_events_sets_witness :
  "eb_1" ∈ source_ids
    (Sheets.load_existing_events
       [ mk_record "" "Rock Concert" "2025-03-01" "Mumbai" "";
         mk_record "ai summit 2025|2025-06-01|pune" "AI Summit 2025"
           "2025-06-01" "Pune" "eb_1" ]).
Proof.
  apply (proj1 (load_existing_events_sets
                  [ mk_record "" "Rock Concert" "2025-03-01" "Mumbai" "";
                    mk_record "ai summit 2025|2025-06-01|pune"
                      "AI Summit 2025" "2025-06-01" "Pune" "eb_1" ])).
  exists (mk_record "ai summit 2025|2025-06-01|pune" "AI Summit 2025"
            "2025-06-01" "Pune" "eb_1").
  split; [apply list_elem_of_further, list_elem_of_here|].
  split; by_evaluation.
Defined.

Lemma load_existing_events_tuples_witness :
  exists tuple : dict,
    events_list
      (Sheets.load_existing_events
         [ mk_record "" "Rock Concert" "2025-03-01" "Mumbai" "";
           <[ "start_date" := PInt 20250601 ]>
             (mk_record "h" "AI Summit 2025" "" "Pune" "eb_1") ]) !! 1
    = Some tuple
    ∧ py_get tuple "title" (PStr "") = PStr "AI Summit 2025"
    ∧ py_get tuple "city" (PStr "") = PStr "Pune"
    ∧ py_get tuple "start_date" (PStr "") = PStr "20250601"
    ∧ Dedup.tuple_ok tuple = true.
Proof.
  destruct (proj2 (proj2 (load_existing_events_tuples
              [ mk_record "" "Rock Concert" "2025-03-01" "Mumbai" "";
                <[ "start_date" := PInt 20250601 ]>
                  (mk_record "h" "AI Summit 2025" "" "Pune" "eb_1") ]))
              1 (<[ "start_date" := PInt 20250601 ]>
                   (mk_record "h" "AI Summit 2025" "" "Pune" "eb_1"))
              eq_refl) as (tuple & H1 & H2 & H3 & H4 & H5).
  exists tuple. split; [exact H1|]. split; [exact H2|]. split; [exact H3|].
  split; [|exact H5].
  rewrite H4. by_evaluation.
Defined.

(** A fuzzy duplicate against a small index is the same fuzzy duplicate
    once the index has grown. *)
Lemma duplicate_verdict_monotone_witness :
  ref_is_duplicate (mk_event "Jazz Nights" "2025-03-01" "Mumbai" "mu_7")
    ({[ "eb_1" ]} ∪ {[ "eb_2" ]})
    ({[ "jazz night|2025-03-01|mumbai" ]}
     ∪ {[ "rock concert|2025-03-01|mumbai" ]})
    ([ mk_tuple "Jazz Night" "2025-03-01" "Mumbai" ]
     ++ [ mk_tuple "Rock Concert" "2025-03-01" "Mumbai" ]) 85
  = Ok (true, "fuzzy_match_2000/21pct")
  ∨ ref_is_duplicate (mk_event "Jazz Nights" "2025-03-01" "Mumbai" "mu_7")
      ({[ "eb_1" ]} ∪ {[ "eb_2" ]})
      ({[ "jazz night|2025-03-01|mumbai" ]}
       ∪ {[ "rock concert|2025-03-01|mumbai" ]})
      ([ mk_tuple "Jazz Night" "2025-03-01" "Mumbai" ]
       ++ [ mk_tuple "Rock Concert" "2025-03-01" "Mumbai" ]) 85
    = Ok (true, "content_hash")
  ∨ ref_is_duplicate (mk_event "Jazz Nights" "2025-03-01" "Mumbai" "mu_7")
      ({[ "eb_1" ]} ∪ {[ "eb_2" ]})
      ({[ "jazz night|2025-03-01|mumbai" ]}
       ∪ {[ "rock concert|2025-03-01|mumbai" ]})
      ([ mk_tuple "Jazz Night" "2025-03-01" "Mumbai" ]
       ++ [ mk_tuple "Rock Concert" "2025-03-01" "Mumbai" ]) 85
    = Ok (true, "exact_source_id").
Proof.
  apply (duplicate_verdict_monotone Reference.digest
           Reference.token_sort_ratio Reference.fmt_score
           (mk_event "Jazz Nights" "2025-03-01" "Mumbai" "mu_7")
           {[ "eb_1" ]} _ {[ "jazz night|2025-03-01|mumbai" ]} _
           [ mk_tuple "Jazz Night" "2025-03-01" "Mumbai" ]).
  - apply union_subseteq_l.
  - apply union_subseteq_l.
  - by_evaluation.
Defined.

Lemma stored_tuples_stay_comparable_witness :
  Forall (fun r => Dedup.tuple_ok r = true)
    (st_events_list
       (Pipeline.process_events Reference.digest Reference.token_sort_ratio
          Reference.fmt_score Reference.now_isoformat
          (Pipeline.initial_state
             (Sheets.load_existing_events
                [ mk_record "h" "Rock Concert" "2025-03-01" "Mumbai"
                    "eb_1" ]))
          [ mk_event "AI Summit 2025" "2025-06-01" "Pune" "eb_2";
            <[ "title" := PNone ]>
              (mk_event "" "2025-06-01" "Pune" "eb_3") ])).
Proof.
  apply stored_tuples_stay_comparable. all_tuples_ok.
Defined.

Lemma errors_come_from_untyped_candidates_witness :
  errors
    (st_stats
       (Pipeline.process_events Reference.digest Reference.token_sort_ratio
          Reference.fmt_score Reference.now_isoformat
          (Pipeline.initial_state
             (Sheets.load_existing_events
                [ mk_record "h" "Rock Concert" "2025-03-01" "Mumbai"
                    "eb_1" ]))
          [ mk_event "AI Summit 2025" "2025-06-01" "Pune" "eb_2";
            {[ "source_id" := PInt 7 ]} ]))
  = errors
      (st_stats
         (Pipeline.initial_state
            (Sheets.load_existing_events
               [ mk_record "h" "Rock Concert" "2025-03-01" "Mumbai"
                   "eb_1" ]))).
Proof.
  apply (proj2 (errors_come_from_untyped_candidates Reference.digest
                  Reference.token_sort_ratio Reference.fmt_score
                  Reference.now_isoformat
                  (Pipeline.initial_state
                     (Sheets.load_existing_events
                        [ mk_record "h" "Rock Concert" "2025-03-01"
                            "Mumbai" "eb_1" ]))
                  ltac:(all_tuples_ok))).
  repeat (apply List.Forall_cons; [split; by_evaluation|]).
  apply List.Forall_nil.
Defined.

Lemma accepted_hashes_are_new_and_distinct_witness :
  exists h,
    row_cell
      [ PStr "ai summit 2025|2025-06-01|pune"; PStr "AI Summit 2025";
        PStr "2025-06-01"; PStr ""; PStr "Pune"; PStr "India"; PStr "";
        PStr "eb_1"; PStr ""; PStr ""; PStr "Free"; PStr "TRUE"; PStr "";
        PStr ""; PStr ""; PStr ""; PStr "2025-06-01T12:00:00";
        PStr "TRUE" ] "content_hash" = Some (PStr h)
    ∧ h ∈ st_content_hashes
          (out_state
             (ref_run empty_existing
                [ mk_event "AI Summit 2025" "2025-06-01" "Pune" "eb_1";
                  mk_event "ai summit  2025" "2025-06-01" "pune" "ae_3" ]))
    ∧ h ∉ content_hashes empty_existing.
Proof.
  apply (proj2 (accepted_hashes_are_new_and_distinct Reference.digest
                  Reference.token_sort_ratio Reference.fmt_score
                  Reference.now_isoformat empty_existing
                  [ mk_event "AI Summit 2025" "2025-06-01" "Pune" "eb_1";
                    mk_event "ai summit  2025" "2025-06-01" "pune"
                      "ae_3" ])).
  assert (Hrows :
    st_new_rows
      (out_state
         (ref_run empty_existing
            [ mk_event "AI Summit 2025" "2025-06-01" "Pune" "eb_1";
              mk_event "ai summit  2025" "2025-06-01" "pune" "ae_3" ]))
    = [ [ PStr "ai summit 2025|2025-06-01|pune"; PStr "AI Summit 2025";
          PStr "2025-06-01"; PStr ""; PStr "Pune"; PStr "India"; PStr "";
          PStr "eb_1"; PStr ""; PStr ""; PStr "Free"; PStr "TRUE"; PStr "";
          PStr ""; PStr ""; PStr ""; PStr "2025-06-01T12:00:00";
          PStr "TRUE" ] ]) by by_evaluation.
  rewrite Hrows. apply list_elem_of_here.
Defined.

Lemma counters_follow_layers_witness :
  Pipeline.process_event Reference.digest Reference.token_sort_ratio
    Reference.fmt_score Reference.now_isoformat
    (Pipeline.initial_state
       (Sheets.load_existing_events
          [ mk_record "jazz night|2025-03-01|mumbai" "Jazz Night"
              "2025-03-01" "Mumbai" "eb_1" ]))
    (mk_event "Jazz Nights" "2025-03-01" "Mumbai" "mu_7")
  = with_stats incr_dup_fuzzy
      (Pipeline.initial_state
         (Sheets.load_existing_events
            [ mk_record "jazz night|2025-03-01|mumbai" "Jazz Night"
                "2025-03-01" "Mumbai" "eb_1" ])).
Proof.
  apply (proj2 (proj2 (counters_follow_layers Reference.digest
                         Reference.token_sort_ratio Reference.fmt_score
                         Reference.now_isoformat
                         (Pipeline.initial_state
                            (Sheets.load_existing_events
                               [ mk_record "jazz night|2025-03-01|mumbai"
                                   "Jazz Night" "2025-03-01" "Mumbai"
                                   "eb_1" ]))
                         (mk_event "Jazz Nights" "2025-03-01" "Mumbai"
                            "mu_7")))
           (Qmake 2000 21)); by_evaluation.
Defined.

Lemma stored_listing_is_exact_duplicate_witness :
  out_stats
    (ref_run
       (Sheets.load_existing_events
          [ mk_record "h" "Rock Concert" "2025-03-01" "Mumbai" "eb_1" ])
       [ mk_event "Rock Concert (moved)" "2025-04-02" "Pune" " eb_1 " ])
  = incr_dup_exact zero_stats.
Proof.
  apply (stored_listing_is_exact_duplicate Reference.digest
           Reference.token_sort_ratio Reference.fmt_score
           Reference.now_isoformat
           [ mk_record "h" "Rock Concert" "2025-03-01" "Mumbai" "eb_1" ]
           (mk_record "h" "Rock Concert" "2025-03-01" "Mumbai" "eb_1")
           (mk_event "Rock Concert (moved)" "2025-04-02" "Pune" " eb_1 ")).
  - apply list_elem_of_here.
  - by_evaluation.
  - by_evaluation.
Defined.

Lemma stored_fingerprint_is_duplicate_witness :
  new
    (out_stats
       (ref_run
          (Sheets.load_existing_events
             [ mk_record "rock concert|2025-03-01|mumbai" "Rock Concert"
                 "2025-03-01" "Mumbai" "eb_1" ])
          [ mk_event "ROCK  concert!" "2025-03-01T20:00" "mumbai" "mu_4" ]))
  = 0%Z.
Proof.
  apply (stored_fingerprint_is_duplicate Reference.digest
           Reference.token_sort_ratio Reference.fmt_score
           Reference.now_isoformat
           [ mk_record "rock concert|2025-03-01|mumbai" "Rock Concert"
               "2025-03-01" "Mumbai" "eb_1" ]
           (mk_record "rock concert|2025-03-01|mumbai" "Rock Concert"
              "2025-03-01" "Mumbai" "eb_1")
           (mk_event "ROCK  concert!" "2025-03-01T20:00" "mumbai" "mu_4")).
  - apply list_elem_of_here.
  - by_evaluation.
  - by_evaluation.
Defined.

Lemma normalize_event_shape_witness :
  is_Some
    (Scrapers.normalize_event "meetup" {[ "source_id" := PInt 42 ]}
       !! "country").
Proof.
  apply (proj1 (normalize_event_shape "meetup"
                  {[ "source_id" := PInt 42 ]})).
  by_evaluation.
Defined.

Lemma verdict_ignores_platform_witness :
  Dedup.compute_content_hash Reference.digest
    (py_get
       (Scrapers.normalize_event "meetup"
          (mk_tuple "" "2025-06-01" "Pune" ∖ {[ "title" := PNone ]}))
       "title" (PStr ""))
    (py_get
       (Scrapers.normalize_event "meetup"
          (mk_tuple "" "2025-06-01" "Pune" ∖ {[ "title" := PNone ]}))
       "start_date" (PStr ""))
    (py_get
       (Scrapers.normalize_event "meetup"
          (mk_tuple "" "2025-06-01" "Pune" ∖ {[ "title" := PNone ]}))
       "city" (PStr ""))
  = Dedup.compute_content_hash Reference.digest (PStr "Untitled Event")
      (py_get (mk_tuple "" "2025-06-01" "Pune" ∖ {[ "title" := PNone ]})
         "start_date" (PStr ""))
      (py_get (mk_tuple "" "2025-06-01" "Pune" ∖ {[ "title" := PNone ]})
         "city" (PStr "")).
Proof.
  apply (proj2 (verdict_ignores_platform Reference.digest
                  Reference.token_sort_ratio Reference.fmt_score
                  "meetup" "meetup"
                  (mk_tuple "" "2025-06-01" "Pune"
                   ∖ {[ "title" := PNone ]})
                  ∅ ∅ [] 85)).
  by_evaluation.
Defined.

Lemma untitled_events_collide_witness :
  new
    (out_stats
       (ref_run empty_existing
          [ Scrapers.normalize_event "eventbrite"
              (list_to_map
                 [ ("start_date", PStr "2025-06-01"); ("city", PStr "Pune");
                   ("source_id", PStr "eb_1") ]);
            Scrapers.normalize_event "meetup"
              (list_to_map
                 [ ("start_date", PStr "2025-06-01"); ("city", PStr "Pune");
                   ("source_id", PInt 7) ]) ]))
  = 1%Z.
Proof.
  pose proof
    (untitled_events_collide Reference.digest
       Reference.token_sort_ratio Reference.fmt_score
       Reference.now_isoformat "eventbrite" "meetup"
       (list_to_map
          [ ("start_date", PStr "2025-06-01"); ("city", PStr "Pune");
            ("source_id", PStr "eb_1") ])
       (list_to_map
          [ ("start_date", PStr "2025-06-01"); ("city", PStr "Pune");
            ("source_id", PInt 7) ])
       eq_refl eq_refl eq_refl eq_refl eq_refl) as (Hnew & _).
  exact Hnew.
Defined.

Lemma normalize_str_plain_text_witness :
  normalize_str (normalize_str "  AI  Summit_2025 ")
  = normalize_str "  AI  Summit_2025 ".
Proof. apply normalize_str_plain_text. by_evaluation. Defined.

Lemma unique_iff_all_gated_below_witness :
  ref_is_duplicate
    (mk_event "Summer Music Fest 25" "2025-07-12" "Goa" "mu_3")
    {[ "eb_1" ]} {[ "summer music gala 25|2025-07-12|goa" ]}
    [ mk_tuple "Summer Music Gala 25" "2025-07-12" "Goa";
      mk_tuple "Summer Music Fest 25" "2025-07-13" "Goa" ] 85
  = Ok (false, "").
Proof.
  apply (unique_iff_all_gated_below Reference.digest
           Reference.token_sort_ratio Reference.fmt_score
           (mk_event "Summer Music Fest 25" "2025-07-12" "Goa" "mu_3")
           {[ "eb_1" ]} {[ "summer music gala 25|2025-07-12|goa" ]}
           [ mk_tuple "Summer Music Gala 25" "2025-07-12" "Goa";
             mk_tuple "Summer Music Fest 25" "2025-07-13" "Goa" ] 85
           "summer music fest 25" "2025-07-12" "goa").
  - repeat split; [right|..]; by_evaluation.
  - all_tuples_ok.
  - each_tuple.
Defined.

Lemma threshold_only_tunes_fuzzy_layer_witness :
  ref_is_duplicate
    (mk_event "Summer Music Fest 25" "2025-07-12" "Goa" "mu_3")
    {[ "eb_1" ]} {[ "summer music fair 25|2025-07-12|goa" ]}
    [ mk_tuple "Summer Music Fair 25" "2025-07-12" "Goa" ] 90
  = Ok (false, "").
Proof.
  apply (proj2 (proj2 (threshold_only_tunes_fuzzy_layer Reference.digest
                         Reference.token_sort_ratio Reference.fmt_score
                         (mk_event "Summer Music Fest 25" "2025-07-12"
                            "Goa" "mu_3")
                         {[ "eb_1" ]}
                         {[ "summer music fair 25|2025-07-12|goa" ]}
                         [ mk_tuple "Summer Music Fair 25" "2025-07-12"
                             "Goa" ] 86 90)));
    by_evaluation.
Defined.
